(** * Lavapy / Pylink: a shallow embedding of the resource model and the
      websocket session, with the properties of their specification.

    Sources embedded here:
    - [src/lavapy/stats.py]    : [Stats.__init__]
    - [src/lavapy/tracks.py]   : [Playable.search], [PartialResource],
                                 [Track.__init__] and its properties,
                                 [MultiTrack], the class statements and
                                 the attribute lookup along their bases
    - [src/pylink/websocket.py]: [Websocket.__init__], [connect], [send],
                                 [get], and the runs of a session

    Python dictionaries are finite maps ([gmap string _]), Python
    exceptions are the [Raise] branch of [Outcome], and the calls a
    coroutine makes to its collaborators are the nodes of a small free
    monad ([Coro]) which a handler interprets into a trace. *)

From Stdlib Require Import ZArith List Floats.SpecFloat.
From stdpp Require Import gmap strings list fin_maps pretty.
Import ListNotations.

Local Open Scope string_scope.

(** ** Python values and exceptions *)

(** The builtin exceptions the embedded code can raise by itself, and
    [CollaboratorError] for whatever an external collaborator raises
    (a transport failure of the lookup, say), given by the method
    resolution order of its class: the names of the class and of all its
    bases, in order. *)
Inductive PyExc : Type :=
| AttributeError
| KeyError
| TypeError
| IndexError
| CollaboratorError (class_mro : list string).

(** The method resolution order of each exception class, by class name:
    Python's builtin hierarchy for the builtin exceptions, and for a
    collaborator's error the order it comes with. *)
Definition exc_mro (e : PyExc) : list string :=
  match e with
  | AttributeError => ["AttributeError"; "Exception"; "BaseException"; "object"]
  | KeyError => ["KeyError"; "LookupError"; "Exception"; "BaseException"; "object"]
  | TypeError => ["TypeError"; "Exception"; "BaseException"; "object"]
  | IndexError => ["IndexError"; "LookupError"; "Exception"; "BaseException"; "object"]
  | CollaboratorError class_mro => class_mro
  end.

(** Two errors of the transport: aiohttp's [ClientConnectorError] and the
    builtin [ConnectionResetError]. *)
Definition ClientConnectorError : PyExc :=
  CollaboratorError
    ["ClientConnectorError"; "ClientOSError"; "ClientConnectionError";
     "ClientError"; "OSError"; "Exception"; "BaseException"; "object"].

Definition ConnectionResetError : PyExc :=
  CollaboratorError
    ["ConnectionResetError"; "ConnectionError"; "OSError"; "Exception";
     "BaseException"; "object"].

(** [isinstance(e, <class named c>)]. *)
Definition exc_isinstance (e : PyExc) (c : string) : bool :=
  bool_decide (c ∈ exc_mro e).

(** What evaluating a Python expression or running a call gives. *)
Inductive Outcome (A : Type) : Type :=
| Return (a : A)
| Raise (e : PyExc).
Arguments Return {A} a.
Arguments Raise {A} e.

Definition obind {A B} (m : Outcome A) (k : A -> Outcome B) : Outcome B :=
  match m with
  | Return a => k a
  | Raise e => Raise e
  end.

Declare Scope py_scope.
Delimit Scope py_scope with py.
Notation "x <~ m ;; k" := (obind m (fun x => k))
  (at level 100, m at next level, right associativity) : py_scope.

Definition raises {A} (m : Outcome A) : Prop := exists e, m = Raise e.

(** The values a decoded JSON payload is made of. A dict is a finite map
    from string keys. Floats are kept as IEEE values; the code only copies
    them. *)
#[warnings="-register-all"]
Inductive PyVal : Type :=
| PNone
| PBool (b : bool)
| PInt (n : Z)
| PFloat (f : spec_float)
| PStr (s : string)
| PList (l : list PyVal)
| PDict (d : gmap string PyVal).

(** [d[k]] on a dict: the value, or [KeyError]. *)
Definition dict_getitem (d : gmap string PyVal) (k : string) : Outcome PyVal :=
  match d !! k with
  | Some v => Return v
  | None => Raise KeyError
  end.

(** [d.get(k, dflt)] on a dict. *)
Definition dict_get (d : gmap string PyVal) (k : string) (dflt : PyVal) : PyVal :=
  match d !! k with
  | Some v => v
  | None => dflt
  end.

(** [v[k]] with a string key on any value: only a dict can be subscripted
    with a string, every other value raises [TypeError]. *)
Definition getitem (v : PyVal) (k : string) : Outcome PyVal :=
  match v with
  | PDict d => dict_getitem d k
  | _ => Raise TypeError
  end.

(** [v.get(k, dflt)] on any value: only a dict has a [get] method. *)
Definition get (v : PyVal) (k : string) (dflt : PyVal) : Outcome PyVal :=
  match v with
  | PDict d => Return (dict_get d k dflt)
  | _ => Raise AttributeError
  end.

(** ** src/lavapy/stats.py *)

(** Modelled from the spec: the class [Node] (lavapy/node.py) is not among
    the sources; a node is known by its identity only. *)
Definition Node : Type := nat.

Module Stats.

Record t : Type := mk {
  node : Node;
  uptime : PyVal;
  players : PyVal;
  playingPlayers : PyVal;
  memoryReservable : PyVal;
  memoryUsed : PyVal;
  memoryFree : PyVal;
  memoryAllocated : PyVal;
  cpuCores : PyVal;
  systemLoad : PyVal;
  lavalinkLoad : PyVal;
  framesSent : PyVal;
  framesDeficit : PyVal;
  framesNulled : PyVal
}.

(** [Stats.__init__(self, node, data)], statement by statement. *)
Definition __init__ (node : Node) (data : gmap string PyVal) : Outcome t :=
  (uptime <~ dict_getitem data "uptime" ;;
   players <~ dict_getitem data "players" ;;
   playingPlayers <~ dict_getitem data "playingPlayers" ;;
   memory <~ dict_getitem data "memory" ;;
   memoryReservable <~ getitem memory "reservable" ;;
   memoryUsed <~ getitem memory "used" ;;
   memoryFree <~ getitem memory "free" ;;
   memoryAllocated <~ getitem memory "allocated" ;;
   cpu <~ dict_getitem data "cpu" ;;
   cpuCores <~ getitem cpu "cores" ;;
   systemLoad <~ getitem cpu "systemLoad" ;;
   lavalinkLoad <~ getitem cpu "lavalinkLoad" ;;
   let frameStats := dict_get data "frameStats" (PDict ∅) in
   framesSent <~ get frameStats "sent" (PInt (-1)) ;;
   framesDeficit <~ get frameStats "deficit" (PInt (-1)) ;;
   framesNulled <~ get frameStats "nulled" (PInt (-1)) ;;
   Return (mk node uptime players playingPlayers
              memoryReservable memoryUsed memoryFree memoryAllocated
              cpuCores systemLoad lavalinkLoad
              framesSent framesDeficit framesNulled))%py.

End Stats.

(** ** src/lavapy/tracks.py: the data classes *)

Module Track.

Record t : Type := mk {
  _id : string;
  _info : gmap string PyVal;
  _identifier : PyVal;
  _isSeekable : PyVal;
  _author : PyVal;
  _length : PyVal;
  _isStream : PyVal;
  _type : PyVal;
  _title : PyVal;
  _uri : PyVal
}.

(** [Track.__init__(self, id, info)], statement by statement. *)
Definition __init__ (id : string) (info : gmap string PyVal) : Outcome t :=
  (identifier <~ dict_getitem info "identifier" ;;
   isSeekable <~ dict_getitem info "isSeekable" ;;
   author <~ dict_getitem info "author" ;;
   length <~ dict_getitem info "length" ;;
   isStream <~ dict_getitem info "isStream" ;;
   type <~ dict_getitem info "sourceName" ;;
   title <~ dict_getitem info "title" ;;
   uri <~ dict_getitem info "uri" ;;
   Return (mk id info identifier isSeekable author length isStream
              type title uri))%py.

(** The read-only properties. *)
Definition id (self : t) : string := _id self.
Definition identifier (self : t) : PyVal := _identifier self.
Definition isSeekable (self : t) : PyVal := _isSeekable self.
Definition author (self : t) : PyVal := _author self.
Definition length (self : t) : PyVal := _length self.
Definition isStream (self : t) : PyVal := _isStream self.
Definition type (self : t) : PyVal := _type self.
Definition title (self : t) : PyVal := _title self.
Definition uri (self : t) : PyVal := _uri self.

End Track.

Module MultiTrack.

Record t : Type := mk {
  _name : string;
  _tracks : list Track.t
}.

Definition __init__ (name : string) (tracks : list Track.t) : t := mk name tracks.
Definition name (self : t) : string := _name self.
Definition tracks (self : t) : list Track.t := _tracks self.

End MultiTrack.

(** The classes that have the classmethod [search]: [Playable] and the
    classes that inherit from it. *)
Inductive ResourceCls : Type :=
| Playable
| YoutubeTrack
| YoutubeMusicTrack
| SoundcloudTrack
| YoutubePlaylist.

(** The class attribute [_searchType], looked up along the class's
    bases. [Playable] only annotates it ([_searchType: str], which binds no
    value) and [YoutubePlaylist] assigns [_trackCls] only. *)
Definition _searchType (cls : ResourceCls) : option string :=
  match cls with
  | YoutubeTrack => Some "ytsearch"
  | YoutubeMusicTrack => Some "ytmsearch"
  | SoundcloudTrack => Some "scsearch"
  | YoutubePlaylist => None
  | Playable => None
  end.

(** The class attribute [_trackCls]: assigned by [YoutubePlaylist] only. *)
Definition _trackCls (cls : ResourceCls) : option ResourceCls :=
  match cls with
  | YoutubePlaylist => Some YoutubeTrack
  | _ => None
  end.

(** Evaluating [cls._searchType]: a missing attribute raises. *)
Definition getattr_searchType (cls : ResourceCls) : Outcome string :=
  match _searchType cls with
  | Some tag => Return tag
  | None => Raise AttributeError
  end.

(** [str(cls)] of a class object, as the f-string of [__repr__] prints it. *)
Definition cls_qualname (cls : ResourceCls) : string :=
  match cls with
  | Playable => "Playable"
  | YoutubeTrack => "YoutubeTrack"
  | YoutubeMusicTrack => "YoutubeMusicTrack"
  | SoundcloudTrack => "SoundcloudTrack"
  | YoutubePlaylist => "YoutubePlaylist"
  end.

Definition cls_str (cls : ResourceCls) : string :=
  "<class 'lavapy.tracks." ++ cls_qualname cls ++ "'>".

Module PartialResource.

Record t : Type := mk {
  _cls : ResourceCls;
  _query : string;
  _search : bool
}.

Definition __init__ (cls : ResourceCls) (query : string) (search : bool) : t :=
  mk cls query search.

(** The three properties; none has a setter. *)
Definition cls (self : t) : ResourceCls := _cls self.
Definition query (self : t) : string := _query self.
Definition search (self : t) : bool := _search self.

Definition __repr__ (self : t) : string :=
  "<Lavapy PartialResource (Cls=" ++ cls_str (cls self) ++ ") (Query="
    ++ query self ++ ")>".

(** The operations a caller has on a [PartialResource] object: the
    methods and properties of the class, and an assignment through one of
    the property names, which Python refuses because the property has no
    setter. Each operation is run on the object and gives back the object
    as it is afterwards. *)
Inductive attr : Type := attr_cls | attr_query | attr_search.

Inductive op : Type :=
| op_repr
| op_get (a : attr)
| op_set_cls (v : ResourceCls)
| op_set_query (v : string)
| op_set_search (v : bool).

Inductive value : Type :=
| VCls (c : ResourceCls)
| VStr (s : string)
| VBool (b : bool)
| VNone.

Definition exec (o : op) (self : t) : Outcome value * t :=
  match o with
  | op_repr => (Return (VStr (__repr__ self)), self)
  | op_get attr_cls => (Return (VCls (cls self)), self)
  | op_get attr_query => (Return (VStr (query self)), self)
  | op_get attr_search => (Return (VBool (search self)), self)
  | op_set_cls _ => (Raise AttributeError, self)
  | op_set_query _ => (Raise AttributeError, self)
  | op_set_search _ => (Raise AttributeError, self)
  end.

(** A sequence of operations, the object threaded through. *)
Fixpoint exec_all (os : list op) (self : t) : t :=
  match os with
  | [] => self
  | o :: os' => exec_all os' (snd (exec o self))
  end.

End PartialResource.

(** ** src/lavapy/tracks.py: [Playable.search] *)

(** The objects that flow through [search]: what the lookup hands back and
    what [search] returns. *)
Inductive PyObj : Type :=
| ONone
| OTrack (t : Track.t)
| OList (l : list Track.t)
| OMulti (m : MultiTrack.t)
| OPartial (p : PartialResource.t).

(** [tracks[0]]: the first element of a list, [IndexError] on the empty
    list; the other objects define no [__getitem__]. *)
Definition subscript0 (tracks : PyObj) : Outcome PyObj :=
  match tracks with
  | OList (t :: _) => Return (OTrack t)
  | OList [] => Raise IndexError
  | _ => Raise TypeError
  end.

(** [tracks is not None]. *)
Definition is_not_None (o : PyObj) : bool :=
  match o with
  | ONone => false
  | _ => true
  end.

(** A coroutine of the resource model: it finishes with an outcome, or
    calls one of its two collaborators and goes on with the answer.
    - [NodePool.getNode()] (lavapy/pool.py);
    - [await node.getTracks(cls, query)] (lavapy/node.py), the one call
      that goes to the network. *)
Inductive Coro (R : Type) : Type :=
| Done (o : Outcome R)
| NodePool_getNode (k : Node -> Coro R)
| Node_getTracks (node : Node) (cls : ResourceCls) (query : string)
    (k : PyObj -> Coro R).
Arguments Done {R} o.
Arguments NodePool_getNode {R} k.
Arguments Node_getTracks {R} node cls query k.

Fixpoint cbind {A B} (m : Coro A) (k : A -> Coro B) : Coro B :=
  match m with
  | Done (Return a) => k a
  | Done (Raise e) => Done (Raise e)
  | NodePool_getNode h => NodePool_getNode (fun n => cbind (h n) k)
  | Node_getTracks n c q h => Node_getTracks n c q (fun r => cbind (h r) k)
  end.

Definition ret {A} (a : A) : Coro A := Done (Return a).

Declare Scope coro_scope.
Delimit Scope coro_scope with coro.
Notation "x <- m ;; k" := (cbind m (fun x => k))
  (at level 100, m at next level, right associativity) : coro_scope.

(** [search(cls, query, node=None, search=True, returnFirst=True,
    partial=False)], statement by statement. [node] is [None] when the
    caller gives no node; a function that falls off its end returns
    [None]. *)
Definition search (cls : ResourceCls) (query : string) (node : option Node)
    (search returnFirst partial : bool) : Coro PyObj :=
  (node <- match node with
           | None => NodePool_getNode ret
           | Some n => ret n
           end ;;
   query <- (if search
             then Done (tag <~ getattr_searchType cls ;;
                        Return (tag ++ ":" ++ query))%py
             else ret query) ;;
   if partial
   then ret (OPartial (PartialResource.__init__ cls query search))
   else
     tracks <- Node_getTracks node cls query ret ;;
     if is_not_None tracks
     then if search && returnFirst
          then Done (subscript0 tracks)
          else ret tracks
     else ret ONone)%coro.

(** Modelled from the spec: the collaborators [NodePool] (lavapy/pool.py)
    and [Node.getTracks] (lavapy/node.py) are not among the sources. The
    pool returns an available node. The lookup answers with a list of
    tracks, a multi-track container or nothing, or fails with an error of
    its own, which [search] does not catch. *)
Record Collaborators : Type := {
  pool_getNode : Node;
  node_getTracks : Node -> ResourceCls -> string -> Outcome PyObj
}.

(** What a run does with its collaborators, in order. *)
Inductive Event : Type :=
| EvGetNode
| EvGetTracks (node : Node) (cls : ResourceCls) (query : string).

(** Running a coroutine against its collaborators: the calls made and the
    outcome. An error raised by the lookup ends the run. *)
Fixpoint run {R} (env : Collaborators) (c : Coro R) : list Event * Outcome R :=
  match c with
  | Done o => ([], o)
  | NodePool_getNode k =>
      let r := run env (k (pool_getNode env)) in
      (EvGetNode :: fst r, snd r)
  | Node_getTracks n cls q k =>
      match node_getTracks env n cls q with
      | Return v =>
          let r := run env (k v) in
          (EvGetTracks n cls q :: fst r, snd r)
      | Raise e => ([EvGetTracks n cls q], Raise e)
      end
  end.

(** The node's track lookup is the network I/O of [search]. *)
Definition is_lookup (ev : Event) : bool :=
  match ev with
  | EvGetTracks _ _ _ => true
  | EvGetNode => false
  end.

Definition lookups (tr : list Event) : list Event := List.filter is_lookup tr.

(** The node a search runs on. *)
Definition resolve (env : Collaborators) (node : option Node) : Node :=
  match node with
  | Some n => n
  | None => pool_getNode env
  end.

(** ** src/pylink/websocket.py *)

Module Websocket.

(** The connection object that [ws_connect] hands back, by identity. *)
Definition Connection : Type := nat.

(** The attributes of a [Websocket]. The [aiohttp.ClientSession] kept in
    [_session] is the network itself: what is asked of it is recorded in
    the world's [net] log below. *)
Record t : Type := mk {
  host : string;
  port : Z;
  password : string;
  userID : string;
  _connection : option Connection
}.

(** What the session asks of the network. *)
Inductive NetOp : Type :=
| ws_connect (url : string) (headers : gmap string string) (heartbeat : Z)
| send_json (conn : Connection) (payload : PyVal)
| http_get (destination : string) (headers : gmap string string).

Definition is_write (o : NetOp) : bool :=
  match o with
  | send_json _ _ => true
  | _ => false
  end.

Definition writes (log : list NetOp) : list NetOp := List.filter is_write log.

(** The task that [asyncio.create_task(self.connect())] puts on the event
    loop: scheduled, suspended at its [await], or over. *)
Inductive TaskState : Type :=
| Scheduled
| Awaiting
| Completed
| Failed (e : PyExc).

(** A session, its connect task and the network log. *)
Record World : Type := mkWorld {
  self : t;
  task : TaskState;
  net : list NetOp
}.

(** [Websocket.__init__(self, host, port, password, userID)]: the
    connection attribute is [None] and [connect] is scheduled, not run. *)
Definition __init__ (host : string) (port : Z) (password userID : string) : World :=
  mkWorld (mk host port password userID None) Scheduled [].

(** The dict literal of [connect]. *)
Definition connect_headers (s : t) : gmap string string :=
  <["Client-Name" := "Pylink"]>
    (<["User-Id" := userID s]>
       (<["Authorization" := password s]> ∅)).

(** [f"ws://{self.host}:{self.port}"]. *)
Definition connect_url (s : t) : string :=
  "ws://" ++ host s ++ ":" ++ pretty (port s).

(** [connect], up to its [await]: the request goes out. *)
Definition connect_start (w : World) : World :=
  mkWorld (self w) Awaiting
    (net w ++ [ws_connect (connect_url (self w)) (connect_headers (self w)) 60]).

(** [connect], resumed with the connection: the assignment to
    [self._connection]. *)
Definition connect_resume (conn : Connection) (w : World) : World :=
  mkWorld (mk (host (self w)) (port (self w)) (password (self w))
              (userID (self w)) (Some conn))
    Completed (net w).

(** [connect], resumed with an error of the transport: nothing is
    assigned. *)
Definition connect_fail (e : PyExc) (w : World) : World :=
  mkWorld (self w) (Failed e) (net w).

(** [send(self, payload)]: [self._connection.send_json(payload)] is an
    attribute lookup on [self._connection] and then the write; [io] is
    what the write gives back. *)
Definition send (payload : PyVal) (io : Outcome unit) (w : World)
    : Outcome unit * World :=
  match _connection (self w) with
  | None => (Raise AttributeError, w)
  | Some conn =>
      (io, mkWorld (self w) (task w) (net w ++ [send_json conn payload]))
  end.

(** [get(self, destination, headers)]: a request on the client session;
    [io] is the response, or the error, that the request gives back. *)
Definition get (destination : string) (headers : gmap string string)
    (io : Outcome PyVal) (w : World) : Outcome PyVal * World :=
  (io, mkWorld (self w) (task w) (net w ++ [http_get destination headers])).

(** One turn of the cooperative scheduler: the connect task runs to its
    next suspension point, or the caller runs [send] or [get]. *)
Inductive step : World -> World -> Prop :=
| step_connect_start w :
    task w = Scheduled -> step w (connect_start w)
| step_connect_resume w conn :
    task w = Awaiting -> step w (connect_resume conn w)
| step_connect_fail w e :
    task w = Awaiting -> step w (connect_fail e w)
| step_send w payload io :
    step w (snd (send payload io w))
| step_get w destination headers io :
    step w (snd (get destination headers io w)).

(** The connect task has completed. *)
Definition connected (w : World) : bool :=
  match task w with
  | Completed => true
  | _ => false
  end.

(** Until the connect task has completed there is no connection object,
    and nothing has been written. *)
Definition not_yet_connected (w : World) : Prop :=
  connected w = false -> _connection (self w) = None /\ writes (net w) = [].

End Websocket.

(** The error class that the specification names for a [send] without a
    connection. *)
Definition is_NotConnectedError (e : PyExc) : bool :=
  exc_isinstance e "NotConnectedError".

(** ** Vocabulary of the properties *)

(** A field of a payload, by the path of keys that leads to it through
    nested dicts. *)
Fixpoint path_lookup (v : PyVal) (path : list string) : option PyVal :=
  match path with
  | [] => Some v
  | k :: rest =>
      match v with
      | PDict d =>
          match d !! k with
          | Some x => path_lookup x rest
          | None => None
          end
      | _ => None
      end
  end.

Definition has_field (data : gmap string PyVal) (path : list string) (v : PyVal) : Prop :=
  path_lookup (PDict data) path = Some v.

Definition missing_field (data : gmap string PyVal) (path : list string) : Prop :=
  path_lookup (PDict data) path = None.

(** The fields that [Stats.__init__] subscripts: everything but the
    frame-timing block. *)
Definition Stats_required : list (list string) :=
  [ ["uptime"]; ["players"]; ["playingPlayers"];
    ["memory"]; ["memory"; "reservable"]; ["memory"; "used"];
    ["memory"; "free"]; ["memory"; "allocated"];
    ["cpu"]; ["cpu"; "cores"]; ["cpu"; "systemLoad"]; ["cpu"; "lavalinkLoad"] ].

(** The fields of the track metadata that [Track.__init__] subscripts. *)
Definition Track_required : list string :=
  [ "identifier"; "isSeekable"; "author"; "length"; "isStream";
    "sourceName"; "title"; "uri" ].

(** The query string that a search hands to the lookup: the query behind
    the class's search tag and a colon for a query search, the query itself
    for an identifier search. A class without a search tag has none for a
    query search. *)
Definition lookup_query (cls : ResourceCls) (query : string) (useQuery : bool)
    : option string :=
  if useQuery
  then match _searchType cls with
       | Some tag => Some (tag ++ ":" ++ query)
       | None => None
       end
  else Some query.

(** Collaborators whose lookup answers every call with [r]. *)
Definition answering (pool : Node) (r : Outcome PyObj) : Collaborators :=
  {| pool_getNode := pool; node_getTracks := fun _ _ _ => r |}.

(** Every field that [Stats.__init__] subscripts is there. *)
Definition Stats_required_present (data : gmap string PyVal) : Prop :=
  forall path, path ∈ Stats_required -> ~ missing_field data path.

(** [v] is the entry of the frame-timing block under [k], or -1 when the
    block has no such entry. *)
Definition field_or_minus_one (fs : gmap string PyVal) (k : string) (v : PyVal) : Prop :=
  match fs !! k with
  | Some x => v = x
  | None => v = PInt (-1)
  end.

(** The metadata of one track, as the node sends it. *)
Definition example_track_info : gmap string PyVal :=
  <["identifier" := PStr "dQw4w9WgXcQ"]>
    (<["isSeekable" := PBool true]>
       (<["author" := PStr "Rick Astley"]>
          (<["length" := PInt 212000]>
             (<["isStream" := PBool false]>
                (<["sourceName" := PStr "youtube"]>
                   (<["title" := PStr "Never Gonna Give You Up"]>
                      (<["uri" := PStr "https://www.youtube.com/watch?v=dQw4w9WgXcQ"]> ∅))))))).

(** ** Concrete payloads, for the worked instances *)

Definition example_memory : gmap string PyVal :=
  <["reservable" := PInt 4294967296]>
    (<["used" := PInt 78643200]>
       (<["free" := PInt 189792256]>
          (<["allocated" := PInt 268435456]> ∅))).

Definition example_cpu : gmap string PyVal :=
  <["cores" := PInt 8]>
    (<["systemLoad" := PFloat (S754_finite false 4503599627370496 (-54))]>
       (<["lavalinkLoad" := PFloat (S754_finite false 4503599627370496 (-56))]> ∅)).

Definition example_frameStats : gmap string PyVal :=
  <["sent" := PInt 3000]> (<["deficit" := PInt 0]> (<["nulled" := PInt 12]> ∅)).

Definition example_stats_required : gmap string PyVal :=
  <["uptime" := PInt 183045]>
    (<["players" := PInt 3]>
       (<["playingPlayers" := PInt 1]>
          (<["memory" := PDict example_memory]>
             (<["cpu" := PDict example_cpu]> ∅)))).

Definition example_stats_full : gmap string PyVal :=
  <["frameStats" := PDict example_frameStats]> example_stats_required.

(** A track built from that metadata. *)
Definition example_track : Track.t :=
  Track.mk "QAAAjQIAJVJpY2s=" example_track_info
    (PStr "dQw4w9WgXcQ") (PBool true) (PStr "Rick Astley") (PInt 212000)
    (PBool false) (PStr "youtube") (PStr "Never Gonna Give You Up")
    (PStr "https://www.youtube.com/watch?v=dQw4w9WgXcQ").

(** ** The session over a whole run *)

(** The requests for a websocket in a network log. *)
Definition is_connect (o : Websocket.NetOp) : bool :=
  match o with
  | Websocket.ws_connect _ _ _ => true
  | _ => false
  end.

Definition connects (log : list Websocket.NetOp) : list Websocket.NetOp :=
  List.filter is_connect log.

(** The request that [connect] makes for a session built from the four
    constructor arguments. *)
Definition connect_request_of (host : string) (port : Z) (password userID : string)
    : Websocket.NetOp :=
  Websocket.ws_connect
    (Websocket.connect_url (Websocket.mk host port password userID None))
    (Websocket.connect_headers (Websocket.mk host port password userID None))
    60.

(** The constructor arguments are still what the session holds. *)
Definition same_config (host : string) (port : Z) (password userID : string)
    (w : Websocket.World) : Prop :=
  Websocket.host (Websocket.self w) = host
  /\ Websocket.port (Websocket.self w) = port
  /\ Websocket.password (Websocket.self w) = password
  /\ Websocket.userID (Websocket.self w) = userID.

(** The log of a session whose connect task has started: one request for
    the websocket, nothing written before it, and every write after it
    addressed to the connection [conn] when there is one, absent when
    there is none. *)
Definition log_after_connect (req : Websocket.NetOp)
    (conn : option Websocket.Connection) (log : list Websocket.NetOp) : Prop :=
  exists pre post,
    log = (pre ++ req :: post)%list
    /\ connects pre = [] /\ Websocket.writes pre = []
    /\ connects post = []
    /\ match conn with
       | Some c => forall o, o ∈ Websocket.writes post ->
                             exists payload, o = Websocket.send_json c payload
       | None => Websocket.writes post = []
       end.

(** What holds of a session at every point of a run, by the state of its
    connect task. *)
Definition session_inv (host : string) (port : Z) (password userID : string)
    (w : Websocket.World) : Prop :=
  same_config host port password userID w
  /\ match Websocket.task w with
     | Websocket.Scheduled =>
         Websocket._connection (Websocket.self w) = None
         /\ connects (Websocket.net w) = []
         /\ Websocket.writes (Websocket.net w) = []
     | Websocket.Awaiting | Websocket.Failed _ =>
         Websocket._connection (Websocket.self w) = None
         /\ log_after_connect (connect_request_of host port password userID)
              None (Websocket.net w)
     | Websocket.Completed =>
         exists c,
           Websocket._connection (Websocket.self w) = Some c
           /\ log_after_connect (connect_request_of host port password userID)
                (Some c) (Websocket.net w)
     end.

(** The caller sends one payload after the other; [io] is what the
    transport answers to each. *)
Fixpoint send_all (payloads : list (PyVal * Outcome unit)) (w : Websocket.World)
    : Websocket.World :=
  match payloads with
  | [] => w
  | (payload, io) :: rest => send_all rest (snd (Websocket.send payload io w))
  end.

(** A session, the same session once its connect task has got its
    connection, and once it has got an error instead. *)
Definition example_session : Websocket.World :=
  Websocket.__init__ "127.0.0.1" 2333 "youshallnotpass" "619165194".

Definition example_connected : Websocket.World :=
  Websocket.connect_resume 5 (Websocket.connect_start example_session).

Definition example_failed : Websocket.World :=
  Websocket.connect_fail ClientConnectorError
    (Websocket.connect_start example_session).

Definition example_play : PyVal :=
  PDict (<["op" := PStr "play"]> (<["guildId" := PStr "81384788765712384"]> ∅)).

Definition example_pause : PyVal :=
  PDict (<["op" := PStr "pause"]> (<["pause" := PBool true]> ∅)).

(** ** Payloads: what the constructors look at *)

(** The keys of a statistics payload that [Stats.__init__] reads. *)
Definition Stats_keys : list string :=
  [ "uptime"; "players"; "playingPlayers"; "memory"; "cpu"; "frameStats" ].

Definition is_dict (v : PyVal) : bool :=
  match v with
  | PDict _ => true
  | _ => false
  end.

(** The payload has the frame-timing block, and it is a dict, or has no
    such block. *)
Definition frameStats_usable (data : gmap string PyVal) : Prop :=
  forall v, data !! "frameStats" = Some v -> is_dict v = true.

(** The statistics message as it comes over the websocket, with the
    operation name beside the figures. *)
Definition example_stats_message : gmap string PyVal :=
  <["op" := PStr "stats"]> example_stats_full.

(** The metadata of a track with a field that [Track.__init__] does not
    read. *)
Definition example_track_info_position : gmap string PyVal :=
  <["position" := PInt 0]> example_track_info.

(** A statistics payload whose frame-timing block is a JSON [null]. *)
Definition example_stats_null_frames : gmap string PyVal :=
  <["frameStats" := PNone]> example_stats_required.

(** ** Searches: what reaches the collaborators *)

(** The calls a search makes, in order, as far as its arguments decide
    them: the pool is asked when no node is given, and the lookup is
    called when the search is not partial and has a lookup query. *)
Definition expected_calls (env : Collaborators) (cls : ResourceCls)
    (query : string) (node : option Node) (useQuery partial : bool) : list Event :=
  (match node with
   | None => [EvGetNode]
   | Some _ => []
   end
   ++ if partial then []
      else match lookup_query cls query useQuery with
           | Some q => [EvGetTracks (resolve env node) cls q]
           | None => []
           end)%list.

(** The object is a list. *)
Definition is_list (o : PyObj) : bool :=
  match o with
  | OList _ => true
  | _ => false
  end.

(** A playlist, as the lookup answers with for the link of one. *)
Definition example_playlist : MultiTrack.t :=
  MultiTrack.__init__ "Favourites" [example_track; example_track].

(** ** src/lavapy/tracks.py: the class statements *)

(** The classes of the module, and [object]. *)
Inductive PyClass : Type :=
| cls_object
| cls_PartialResource
| cls_Track
| cls_MultiTrack
| cls_resource (c : ResourceCls).

#[global] Instance ResourceCls_eq_dec : EqDecision ResourceCls.
Proof. solve_decision. Defined.

#[global] Instance PyClass_eq_dec : EqDecision PyClass.
Proof. solve_decision. Defined.

(** The bases, as each class statement lists them. *)
Definition bases (c : PyClass) : list PyClass :=
  match c with
  | cls_object => []
  | cls_PartialResource | cls_Track | cls_MultiTrack => [cls_object]
  | cls_resource Playable => [cls_object]
  | cls_resource YoutubeTrack
  | cls_resource YoutubeMusicTrack
  | cls_resource SoundcloudTrack => [cls_Track; cls_resource Playable]
  | cls_resource YoutubePlaylist => [cls_MultiTrack; cls_resource Playable]
  end.

(** The names that the statements of each class body bind. An annotation
    without a value, as [_searchType: str] in [Playable], binds nothing.
    Of [object] only the two methods that the module overrides are
    listed. *)
Definition class_body (c : PyClass) : list string :=
  match c with
  | cls_object => ["__init__"; "__repr__"]
  | cls_resource Playable => ["search"; "__init__"]
  | cls_PartialResource => ["__init__"; "__repr__"; "cls"; "query"; "search"]
  | cls_Track =>
      ["__init__"; "__repr__"; "id"; "identifier"; "isSeekable"; "author";
       "length"; "isStream"; "type"; "title"; "uri"]
  | cls_MultiTrack => ["__init__"; "__repr__"; "name"; "tracks"]
  | cls_resource YoutubeTrack
  | cls_resource YoutubeMusicTrack
  | cls_resource SoundcloudTrack => ["_searchType"; "__repr__"]
  | cls_resource YoutubePlaylist => ["_trackCls"; "__repr__"]
  end.

(** Python's C3 merge: take the first head that is in no tail, remove it
    from the sequences, go on; no such head means that the hierarchy is
    inconsistent. *)
Definition in_no_tail (c : PyClass) (seqs : list (list PyClass)) : bool :=
  forallb (fun s => negb (bool_decide (c ∈ tail s))) seqs.

Definition drop_head (c : PyClass) (s : list PyClass) : list PyClass :=
  match s with
  | h :: t => if decide (h = c) then t else s
  | [] => []
  end.

Definition nonempty (s : list PyClass) : bool :=
  match s with
  | [] => false
  | _ => true
  end.

Fixpoint c3_merge (fuel : nat) (seqs : list (list PyClass)) : option (list PyClass) :=
  match fuel with
  | O => None
  | S n =>
      match List.filter nonempty seqs with
      | [] => Some []
      | seqs' =>
          match List.find (fun c => in_no_tail c seqs') (omap head seqs') with
          | Some c =>
              match c3_merge n (List.map (drop_head c) seqs') with
              | Some rest => Some (c :: rest)
              | None => None
              end
          | None => None
          end
      end
  end.

(** The method resolution order: the class, then the merge of the orders
    of its bases and of the list of the bases. *)
Fixpoint mro_fuel (fuel : nat) (c : PyClass) : option (list PyClass) :=
  match fuel with
  | O => None
  | S n =>
      match mapM (mro_fuel n) (bases c) with
      | Some ls =>
          match c3_merge 16 (ls ++ [bases c]) with
          | Some rest => Some (c :: rest)
          | None => None
          end
      | None => None
      end
  end.

Definition mro (c : PyClass) : option (list PyClass) := mro_fuel 4 c.

(** [getattr(cls, name)] on a class object, as far as finding the class
    whose body binds the name: the first one along the order. *)
Definition class_getattr (c : PyClass) (name : string) : option PyClass :=
  match mro c with
  | Some order => List.find (fun k => bool_decide (name ∈ class_body k)) order
  | None => None
  end.

(** ** Properties of [Stats] and [Track] *)

Ltac unfold_init :=
  unfold Stats.__init__, Track.__init__, has_field, missing_field,
    getitem, get, dict_getitem, dict_get, obind in *;
  cbn [path_lookup] in *.

Ltac split_lookups :=
  repeat match goal with
    | H : context [match ?m !! ?k with _ => _ end] |- _ =>
        let E := fresh "E" in destruct (m !! k) eqn:E; try discriminate H
    | H : context [match ?v with PDict _ => _ | _ => _ end] |- _ =>
        is_var v; destruct v; try discriminate H
    end.

Ltac use_lookups :=
  cbn beta iota zeta;
  repeat (match goal with
          | H : ?m !! ?k = _ |- context [?m !! ?k] => rewrite H
          end; cbn beta iota zeta).

Section StatsDecode.

Variables (node : Node) (data : gmap string PyVal).
Variables (u p pp mr mu mf ma cc sl ll : PyVal).

Hypothesis Huptime : has_field data ["uptime"] u.
Hypothesis Hplayers : has_field data ["players"] p.
Hypothesis HplayingPlayers : has_field data ["playingPlayers"] pp.
Hypothesis Hreservable : has_field data ["memory"; "reservable"] mr.
Hypothesis Hused : has_field data ["memory"; "used"] mu.
Hypothesis Hfree : has_field data ["memory"; "free"] mf.
Hypothesis Hallocated : has_field data ["memory"; "allocated"] ma.
Hypothesis Hcores : has_field data ["cpu"; "cores"] cc.
Hypothesis HsystemLoad : has_field data ["cpu"; "systemLoad"] sl.
Hypothesis HlavalinkLoad : has_field data ["cpu"; "lavalinkLoad"] ll.

(** With the required fields there, the outcome is decided by the
    frame-timing block alone. *)
Lemma Stats_init_required_present :
  Stats.__init__ node data =
    (let frameStats := dict_get data "frameStats" (PDict ∅) in
     framesSent <~ get frameStats "sent" (PInt (-1)) ;;
     framesDeficit <~ get frameStats "deficit" (PInt (-1)) ;;
     framesNulled <~ get frameStats "nulled" (PInt (-1)) ;;
     Return (Stats.mk node u p pp mr mu mf ma cc sl ll
               framesSent framesDeficit framesNulled))%py.
Proof.
  unfold_init. split_lookups. simplify_eq. use_lookups. reflexivity.
Qed.

(** C6. A statistics payload that has every field decodes to a [Stats]
    whose fields are the payload's, field for field; a payload without
    the [frameStats] object decodes with the three frame counters at -1. *)
Theorem Stats_init_roundtrip :
  (forall s d n,
      has_field data ["frameStats"; "sent"] s ->
      has_field data ["frameStats"; "deficit"] d ->
      has_field data ["frameStats"; "nulled"] n ->
      Stats.__init__ node data =
        Return (Stats.mk node u p pp mr mu mf ma cc sl ll s d n))
  /\ (data !! "frameStats" = None ->
      Stats.__init__ node data =
        Return (Stats.mk node u p pp mr mu mf ma cc sl ll
                  (PInt (-1)) (PInt (-1)) (PInt (-1)))).
Proof.
  split.
  - intros s d n Hs Hd Hn. rewrite Stats_init_required_present.
    unfold_init. split_lookups. simplify_eq. use_lookups. reflexivity.
  - intros Hnone. rewrite Stats_init_required_present.
    unfold_init. rewrite Hnone. cbn. rewrite !lookup_empty. reflexivity.
Qed.

End StatsDecode.

(** C6, at a payload such as Lavalink sends, with and without the
    frame-timing block. *)
Lemma Stats_init_roundtrip_witness :
  Stats.__init__ 0 example_stats_full =
    Return (Stats.mk 0 (PInt 183045) (PInt 3) (PInt 1)
              (PInt 4294967296) (PInt 78643200) (PInt 189792256) (PInt 268435456)
              (PInt 8)
              (PFloat (S754_finite false 4503599627370496 (-54)))
              (PFloat (S754_finite false 4503599627370496 (-56)))
              (PInt 3000) (PInt 0) (PInt 12))
  /\ Stats.__init__ 0 example_stats_required =
    Return (Stats.mk 0 (PInt 183045) (PInt 3) (PInt 1)
              (PInt 4294967296) (PInt 78643200) (PInt 189792256) (PInt 268435456)
              (PInt 8)
              (PFloat (S754_finite false 4503599627370496 (-54)))
              (PFloat (S754_finite false 4503599627370496 (-56)))
              (PInt (-1)) (PInt (-1)) (PInt (-1))).
Proof.
  split.
  - refine (proj1 (Stats_init_roundtrip 0 example_stats_full
                     _ _ _ _ _ _ _ _ _ _ _ _ _ _ _ _ _ _ _ _) _ _ _ _ _ _);
      reflexivity.
  - refine (proj2 (Stats_init_roundtrip 0 example_stats_required
                     _ _ _ _ _ _ _ _ _ _ _ _ _ _ _ _ _ _ _ _) _);
      reflexivity.
Defined.

Ltac head_scrutinee t :=
  lazymatch t with
  | match ?x with _ => _ end => head_scrutinee x
  | _ => t
  end.

(** Runs an [__init__] one statement at a time, towards [raises]. *)
Ltac run_to_raise :=
  repeat (cbn beta iota zeta;
          lazymatch goal with
          | |- raises (Raise _) => eexists; reflexivity
          | |- raises ?t =>
              let x := head_scrutinee t in
              destruct x eqn:?; try discriminate
          end).

Lemma Stats_init_missing_raises node data path :
  path ∈ Stats_required -> missing_field data path ->
  raises (Stats.__init__ node data).
Proof.
  intros Hin Hmiss. unfold Stats_required in Hin.
  repeat (apply elem_of_cons in Hin as [-> | Hin]);
    [ .. | by apply elem_of_nil in Hin ];
    unfold_init; split_lookups; run_to_raise.
Qed.

Lemma Track_init_missing_raises id info k :
  k ∈ Track_required -> info !! k = None ->
  raises (Track.__init__ id info).
Proof.
  intros Hin Hmiss. unfold Track_required in Hin.
  repeat (apply elem_of_cons in Hin as [-> | Hin]);
    [ .. | by apply elem_of_nil in Hin ];
    unfold_init; run_to_raise.
Qed.

Ltac in_list := repeat first [ apply list_elem_of_here | apply list_elem_of_further ].

Lemma Stats_required_present_fields data :
  Stats_required_present data ->
  exists u p pp mr mu mf ma cc sl ll,
    has_field data ["uptime"] u /\ has_field data ["players"] p
    /\ has_field data ["playingPlayers"] pp
    /\ has_field data ["memory"; "reservable"] mr
    /\ has_field data ["memory"; "used"] mu
    /\ has_field data ["memory"; "free"] mf
    /\ has_field data ["memory"; "allocated"] ma
    /\ has_field data ["cpu"; "cores"] cc
    /\ has_field data ["cpu"; "systemLoad"] sl
    /\ has_field data ["cpu"; "lavalinkLoad"] ll.
Proof.
  intros Hall.
  assert (Hget : forall path, path ∈ Stats_required ->
                   exists v, has_field data path v).
  { intros path Hin. specialize (Hall path Hin).
    unfold missing_field, has_field in *.
    destruct (path_lookup (PDict data) path); [eauto | done]. }
  destruct (Hget ["uptime"]) as [u ?]; [in_list |].
  destruct (Hget ["players"]) as [p ?]; [in_list |].
  destruct (Hget ["playingPlayers"]) as [pp ?]; [in_list |].
  destruct (Hget ["memory"; "reservable"]) as [mr ?]; [in_list |].
  destruct (Hget ["memory"; "used"]) as [mu ?]; [in_list |].
  destruct (Hget ["memory"; "free"]) as [mf ?]; [in_list |].
  destruct (Hget ["memory"; "allocated"]) as [ma ?]; [in_list |].
  destruct (Hget ["cpu"; "cores"]) as [cc ?]; [in_list |].
  destruct (Hget ["cpu"; "systemLoad"]) as [sl ?]; [in_list |].
  destruct (Hget ["cpu"; "lavalinkLoad"]) as [ll ?]; [in_list |].
  exists u, p, pp, mr, mu, mf, ma, cc, sl, ll. tauto.
Qed.

Lemma Stats_init_frame_defaults node data :
  Stats_required_present data ->
  (forall fs, data !! "frameStats" = Some (PDict fs) ->
     exists st, Stats.__init__ node data = Return st
       /\ field_or_minus_one fs "sent" (Stats.framesSent st)
       /\ field_or_minus_one fs "deficit" (Stats.framesDeficit st)
       /\ field_or_minus_one fs "nulled" (Stats.framesNulled st))
  /\ (data !! "frameStats" = None ->
     exists st, Stats.__init__ node data = Return st
       /\ Stats.framesSent st = PInt (-1)
       /\ Stats.framesDeficit st = PInt (-1)
       /\ Stats.framesNulled st = PInt (-1)).
Proof.
  intros Hall.
  destruct (Stats_required_present_fields data Hall)
    as (u & p & pp & mr & mu & mf & ma & cc & sl & ll & H1 & H2 & H3 & H4
        & H5 & H6 & H7 & H8 & H9 & H10).
  rewrite (Stats_init_required_present node data u p pp mr mu mf ma cc sl ll)
    by assumption.
  unfold field_or_minus_one, get, dict_get, obind. split.
  - intros fs Hfs. rewrite Hfs. cbn beta iota zeta.
    eexists. split; [reflexivity |]. cbn.
    repeat split; destruct (fs !! _); reflexivity.
  - intros Hnone. rewrite Hnone. cbn beta iota zeta.
    eexists. split; [reflexivity |]. cbn. rewrite !lookup_empty. done.
Qed.

(** C7. A statistics payload or a track payload that lacks a required
    field (any field but the frame-timing block) does not construct: the
    constructor raises. Only the frame-timing block is optional: absent as
    a whole, or lacking an entry, the counter is -1. *)
Theorem init_missing_field_fails_fast :
  (forall node data path,
      path ∈ Stats_required -> missing_field data path ->
      raises (Stats.__init__ node data))
  /\ (forall id info k,
      k ∈ Track_required -> info !! k = None ->
      raises (Track.__init__ id info))
  /\ (forall node data,
      Stats_required_present data ->
      (forall fs, data !! "frameStats" = Some (PDict fs) ->
         exists st, Stats.__init__ node data = Return st
           /\ field_or_minus_one fs "sent" (Stats.framesSent st)
           /\ field_or_minus_one fs "deficit" (Stats.framesDeficit st)
           /\ field_or_minus_one fs "nulled" (Stats.framesNulled st))
      /\ (data !! "frameStats" = None ->
         exists st, Stats.__init__ node data = Return st
           /\ Stats.framesSent st = PInt (-1)
           /\ Stats.framesDeficit st = PInt (-1)
           /\ Stats.framesNulled st = PInt (-1))).
Proof.
  split; [| split].
  - apply Stats_init_missing_raises.
  - apply Track_init_missing_raises.
  - apply Stats_init_frame_defaults.
Qed.

Lemma example_stats_required_present :
  Stats_required_present
    (<["frameStats" := PDict (<["sent" := PInt 3000]> ∅)]> example_stats_required).
Proof.
  intros path Hin. unfold Stats_required in Hin.
  repeat (apply elem_of_cons in Hin as [-> | Hin]);
    [ .. | by apply elem_of_nil in Hin ]; discriminate.
Defined.

(** C7, at payloads that lack ["uptime"], the ["used"] entry of
    ["memory"], and ["title"]; and at a frame-timing block that has
    ["sent"] only. *)
Lemma init_missing_field_fails_fast_witness :
  raises (Stats.__init__ 0 (delete "uptime" example_stats_full))
  /\ raises (Stats.__init__ 0
               (<["memory" := PDict (delete "used" example_memory)]> example_stats_full))
  /\ raises (Track.__init__ "QAAAjQIAJVJpY2s=" (delete "title" example_track_info))
  /\ exists st,
      Stats.__init__ 0
        (<["frameStats" := PDict (<["sent" := PInt 3000]> ∅)]> example_stats_required)
        = Return st
      /\ Stats.framesSent st = PInt 3000
      /\ Stats.framesDeficit st = PInt (-1)
      /\ Stats.framesNulled st = PInt (-1).
Proof.
  destruct init_missing_field_fails_fast as (HStats & HTrack & HFrames).
  split; [| split; [| split]].
  - apply (HStats 0 _ ["uptime"]); [in_list | reflexivity].
  - apply (HStats 0 _ ["memory"; "used"]); [in_list | reflexivity].
  - apply (HTrack _ _ "title"); [in_list | reflexivity].
  - destruct (HFrames 0 _ example_stats_required_present) as [Hsome _].
    destruct (Hsome (<["sent" := PInt 3000]> ∅)) as (st & Hst & Hs & Hd & Hn);
      [reflexivity |].
    exists st. split; [exact Hst |]. split; [exact Hs |]. split; [exact Hd | exact Hn].
Defined.

(** ** Properties of [PartialResource] *)

Lemma PartialResource_exec_unchanged o self :
  snd (PartialResource.exec o self) = self.
Proof. destruct o as [| [] | | |]; reflexivity. Qed.

Lemma PartialResource_exec_all_unchanged os self :
  PartialResource.exec_all os self = self.
Proof.
  revert self. induction os as [| o os IH]; intros self; cbn [PartialResource.exec_all].
  - reflexivity.
  - rewrite PartialResource_exec_unchanged. apply IH.
Qed.

(** C10. The three accessors of a [PartialResource] give back the three
    arguments of its constructor, and they still do after any sequence of
    operations on the object: no operation changes a field. *)
Theorem PartialResource_construct_read cls query search :
  PartialResource.cls (PartialResource.__init__ cls query search) = cls
  /\ PartialResource.query (PartialResource.__init__ cls query search) = query
  /\ PartialResource.search (PartialResource.__init__ cls query search) = search
  /\ (forall o self, snd (PartialResource.exec o self) = self)
  /\ (forall os,
        let self := PartialResource.exec_all os
                      (PartialResource.__init__ cls query search) in
        PartialResource.cls self = cls
        /\ PartialResource.query self = query
        /\ PartialResource.search self = search).
Proof.
  repeat split; try reflexivity.
  - apply PartialResource_exec_unchanged.
  - rewrite PartialResource_exec_all_unchanged. reflexivity.
  - rewrite PartialResource_exec_all_unchanged. reflexivity.
  - rewrite PartialResource_exec_all_unchanged. reflexivity.
Qed.

(** ** Properties of the [Websocket] session *)

Section Session.

Import Websocket.

(** The port is printed in decimal, as an f-string prints an [int]. *)
Example connect_url_example :
  connect_url (mk "127.0.0.1" 2333 "youshallnotpass" "619165194" None)
  = "ws://127.0.0.1:2333".
Proof. reflexivity. Qed.

Lemma connect_headers_lookup s :
  connect_headers s !! "Authorization" = Some (password s)
  /\ connect_headers s !! "User-Id" = Some (userID s)
  /\ connect_headers s !! "Client-Name" = Some "Pylink".
Proof.
  unfold connect_headers. split; [| split].
  - rewrite !lookup_insert_ne by done. apply lookup_insert_eq.
  - rewrite lookup_insert_ne by done. apply lookup_insert_eq.
  - apply lookup_insert_eq.
Qed.

Lemma connect_headers_dom s :
  dom (connect_headers s) = {[ "Authorization"; "User-Id"; "Client-Name" ]}.
Proof.
  unfold connect_headers. rewrite !dom_insert_L, dom_empty_L. set_solver.
Qed.

(** C8. Whatever the configuration, [connect] asks the network for one
    thing: a websocket to [ws://host:port] with a heartbeat of 60 and
    three headers, no more: [Authorization] is the password as given,
    [User-Id] the user id, [Client-Name] the fixed string [Pylink]. *)
Theorem connect_request host port password userID :
  exists headers,
    net (connect_start (__init__ host port password userID))
      = [ws_connect ("ws://" ++ host ++ ":" ++ pretty port) headers 60]
    /\ headers !! "Authorization" = Some password
    /\ headers !! "User-Id" = Some userID
    /\ headers !! "Client-Name" = Some "Pylink"
    /\ dom headers = {[ "Authorization"; "User-Id"; "Client-Name" ]}.
Proof.
  exists (connect_headers (mk host port password userID None)).
  split; [reflexivity |].
  pose proof (connect_headers_lookup (mk host port password userID None))
    as (Ha & Hu & Hc).
  split; [exact Ha |]. split; [exact Hu |]. split; [exact Hc |].
  apply connect_headers_dom.
Qed.

Lemma send_without_connection payload io w :
  _connection (self w) = None -> send payload io w = (Raise AttributeError, w).
Proof. intros H. unfold send. rewrite H. reflexivity. Qed.

Lemma writes_app l1 l2 : writes (l1 ++ l2) = (writes l1 ++ writes l2)%list.
Proof. apply List.filter_app. Qed.

Lemma step_not_yet_connected w w' :
  step w w' -> not_yet_connected w -> not_yet_connected w'.
Proof.
  unfold not_yet_connected, connected.
  intros Hstep Hinv.
  destruct Hstep as [w Ht | w conn Ht | w e Ht | w payload io | w dst hs io];
    cbn; try rewrite Ht in Hinv; intros Hnc.
  - destruct (Hinv eq_refl) as [Hc Hw]. rewrite writes_app, Hw. done.
  - discriminate.
  - apply Hinv. reflexivity.
  - destruct (Hinv) as [Hc Hw].
    { unfold send in Hnc. destruct (_connection (self w)); exact Hnc. }
    rewrite (send_without_connection _ _ _ Hc). done.
  - destruct (Hinv Hnc) as [Hc Hw]. rewrite writes_app, Hw. done.
Qed.

Lemma reachable_not_yet_connected host port password userID w :
  rtc step (__init__ host port password userID) w -> not_yet_connected w.
Proof.
  intros Hreach.
  eapply (rtc_ind_r (fun w => not_yet_connected w)); [ | | exact Hreach ].
  - intros _. done.
  - intros w1 w2 _ Hstep IH. eapply step_not_yet_connected; eassumption.
Qed.

(** C1, as the code has it. On a session that was just constructed, and
    as long as its connect task has not completed, [send] raises
    [AttributeError] (the connection attribute is still [None]) and
    leaves the session and the network log as they were: nothing is
    written, and nothing has been written before. *)
Theorem send_before_connect host port password userID w payload io :
  rtc step (__init__ host port password userID) w ->
  connected w = false ->
  send payload io w = (Raise AttributeError, w)
  /\ writes (net (snd (send payload io w))) = [].
Proof.
  intros Hreach Hnc.
  destruct (reachable_not_yet_connected _ _ _ _ _ Hreach Hnc) as [Hc Hw].
  rewrite (send_without_connection _ _ _ Hc). done.
Qed.

(** C1 on a session whose connect task waits for the network. *)
Lemma send_before_connect_witness :
  send (PDict (<["op" := PStr "pause"]> ∅)) (Return tt)
    (connect_start (__init__ "127.0.0.1" 2333 "youshallnotpass" "619165194"))
  = (Raise AttributeError,
     connect_start (__init__ "127.0.0.1" 2333 "youshallnotpass" "619165194")).
Proof.
  refine (proj1 (send_before_connect "127.0.0.1" 2333 "youshallnotpass"
                   "619165194" _ _ _ _ _)).
  - apply rtc_once. apply step_connect_start. reflexivity.
  - reflexivity.
Defined.

(** C1 as stated fails: the error that [send] raises on a fresh session is
    not of a [NotConnectedError] class. *)
Lemma send_fresh_not_NotConnectedError :
  fst (send (PDict (<["op" := PStr "pause"]> ∅)) (Return tt)
         (__init__ "127.0.0.1" 2333 "youshallnotpass" "619165194"))
    = Raise AttributeError
  /\ is_NotConnectedError AttributeError = false
  /\ ~ exists e,
       fst (send (PDict (<["op" := PStr "pause"]> ∅)) (Return tt)
              (__init__ "127.0.0.1" 2333 "youshallnotpass" "619165194"))
         = Raise e
       /\ is_NotConnectedError e = true.
Proof.
  split; [reflexivity |]. split; [reflexivity |].
  intros (e & He & Hcls). cbn in He. injection He as <-. discriminate Hcls.
Qed.

End Session.

(** ** Properties of [Playable.search] *)

Section Search.

Variable env : Collaborators.

Ltac run_search :=
  unfold search, getattr_searchType, lookup_query, resolve in *;
  cbn [cbind run ret obind fst snd lookups List.filter is_lookup
       PartialResource.__init__ subscript0 is_not_None andb] in *.

(** With [partial] set the lookup is never called, whatever the class and
    the flags, also when the search itself fails. *)
Lemma search_partial_no_lookup cls query node useQuery returnFirst :
  lookups (fst (run env (search cls query node useQuery returnFirst true))) = [].
Proof.
  run_search.
  destruct node, useQuery; cbn; try destruct (_searchType cls); reflexivity.
Qed.

(** The partial search of a class that has a search tag. With [partial]
    set, [search] makes no call to the node's track lookup; an identifier
    search returns a [PartialResource] of the invoked class with the
    original query, for every class; a query search returns one with the
    class's search tag, a colon and the original query, for every class
    that has a search tag. *)
Theorem search_partial_short_circuit cls query node returnFirst :
  (forall useQuery,
      lookups (fst (run env (search cls query node useQuery returnFirst true))) = [])
  /\ (exists p,
        snd (run env (search cls query node false returnFirst true))
          = Return (OPartial p)
        /\ PartialResource.cls p = cls
        /\ PartialResource.query p = query
        /\ PartialResource.search p = false)
  /\ (forall tag, _searchType cls = Some tag ->
      exists p,
        snd (run env (search cls query node true returnFirst true))
          = Return (OPartial p)
        /\ PartialResource.cls p = cls
        /\ PartialResource.query p = tag ++ ":" ++ query
        /\ PartialResource.search p = true).
Proof.
  split; [| split].
  - intros useQuery. apply search_partial_no_lookup.
  - eexists. split.
    { run_search. destruct node; reflexivity. }
    split; [| split]; reflexivity.
  - intros tag Htag. eexists. split.
    { run_search. rewrite Htag. destruct node; reflexivity. }
    split; [| split]; reflexivity.
Qed.

(** The run of a search that is not partial and whose lookup query is
    [q]: one call of the lookup, with [q], on the resolved node. *)
Lemma search_lookup_call cls query node useQuery returnFirst q :
  lookup_query cls query useQuery = Some q ->
  lookups (fst (run env (search cls query node useQuery returnFirst false)))
    = [EvGetTracks (resolve env node) cls q].
Proof.
  intros Hq. run_search.
  destruct node, useQuery; cbn in *;
    try (destruct (_searchType cls); [| discriminate]);
    injection Hq as <-; cbn;
    destruct (node_getTracks env _ cls _) as [r |]; try reflexivity;
    destruct r as [| | [|] | |], returnFirst; reflexivity.
Qed.

(** What a search that is not partial returns, from what the lookup
    answers. *)
Lemma search_result cls query node useQuery returnFirst q :
  lookup_query cls query useQuery = Some q ->
  snd (run env (search cls query node useQuery returnFirst false))
    = (tracks <~ node_getTracks env (resolve env node) cls q ;;
       if is_not_None tracks
       then if useQuery && returnFirst then subscript0 tracks else Return tracks
       else Return ONone)%py.
Proof.
  intros Hq. run_search.
  destruct node, useQuery; cbn in *;
    try (destruct (_searchType cls); [| discriminate]);
    injection Hq as <-; cbn;
    destruct (node_getTracks env _ cls _) as [r |]; try reflexivity;
    destruct r as [| | [|] | |], returnFirst; reflexivity.
Qed.

(** C4. When the lookup of a query search answers with a list that is
    not empty, [search] returns the first element of the list if
    [returnFirst] is set, and the list itself, as it is, if not. *)
Theorem search_first_result cls query node q l :
  lookup_query cls query true = Some q ->
  l <> [] ->
  node_getTracks env (resolve env node) cls q = Return (OList l) ->
  (exists t, head l = Some t
     /\ snd (run env (search cls query node true true false)) = Return (OTrack t))
  /\ snd (run env (search cls query node true false false)) = Return (OList l).
Proof.
  intros Hq Hne Hl.
  rewrite !(search_result _ _ _ _ _ _ Hq), Hl. cbn.
  destruct l as [| t rest]; [done |].
  split; [exists t; split |]; reflexivity.
Qed.

(** C9. For an identifier search that is not partial, [search] gives what
    the lookup gives, as it is, whether [returnFirst] is set or not; the
    lookup is called once, with the query as given. *)
Theorem search_identifier_returnFirst_irrelevant cls query node returnFirst :
  snd (run env (search cls query node false returnFirst false))
    = node_getTracks env (resolve env node) cls query
  /\ run env (search cls query node false returnFirst false)
    = run env (search cls query node false (negb returnFirst) false)
  /\ lookups (fst (run env (search cls query node false returnFirst false)))
    = [EvGetTracks (resolve env node) cls query].
Proof.
  split; [| split].
  - rewrite (search_result cls query node false returnFirst query eq_refl).
    destruct (node_getTracks env _ cls query) as [[] |]; reflexivity.
  - unfold search. destruct returnFirst; reflexivity.
  - apply search_lookup_call. reflexivity.
Qed.

(** C3, as the code has it. When the lookup says that it found nothing by
    answering [None], [search] returns [None] and raises nothing. An empty
    list is not such an answer: unless both [useQuery] and [returnFirst]
    are set, it is returned as the list it is. *)
Theorem search_lookup_nothing cls query node useQuery returnFirst q :
  lookup_query cls query useQuery = Some q ->
  (node_getTracks env (resolve env node) cls q = Return ONone ->
   snd (run env (search cls query node useQuery returnFirst false)) = Return ONone)
  /\ (node_getTracks env (resolve env node) cls q = Return (OList []) ->
      useQuery && returnFirst = false ->
      snd (run env (search cls query node useQuery returnFirst false))
        = Return (OList [])).
Proof.
  intros Hq. rewrite (search_result _ _ _ _ _ _ Hq).
  split.
  - intros ->. reflexivity.
  - intros -> ->. reflexivity.
Qed.

(** The query that reaches the lookup of a query search on a class that
    has a search tag. *)
Lemma search_query_prefixed cls tag query node returnFirst :
  _searchType cls = Some tag ->
  lookups (fst (run env (search cls query node true returnFirst false)))
    = [EvGetTracks (resolve env node) cls (tag ++ ":" ++ query)].
Proof.
  intros Htag. apply search_lookup_call. unfold lookup_query. rewrite Htag.
  reflexivity.
Qed.

(** C5, on the code. For the three track classes the lookup of a query
    search receives the class's tag, a colon and the query. For
    [YoutubePlaylist], which has no search tag, a query search raises
    [AttributeError] and never reaches the lookup. *)
Theorem search_query_prefix_per_class query node returnFirst :
  lookups (fst (run env (search YoutubeTrack query node true returnFirst false)))
    = [EvGetTracks (resolve env node) YoutubeTrack ("ytsearch:" ++ query)]
  /\ lookups (fst (run env (search YoutubeMusicTrack query node true returnFirst false)))
    = [EvGetTracks (resolve env node) YoutubeMusicTrack ("ytmsearch:" ++ query)]
  /\ lookups (fst (run env (search SoundcloudTrack query node true returnFirst false)))
    = [EvGetTracks (resolve env node) SoundcloudTrack ("scsearch:" ++ query)]
  /\ _searchType YoutubePlaylist = None
  /\ snd (run env (search YoutubePlaylist query node true returnFirst false))
    = Raise AttributeError
  /\ lookups (fst (run env (search YoutubePlaylist query node true returnFirst false)))
    = [].
Proof.
  split; [| split; [| split; [| split; [| split]]]].
  - apply (search_query_prefixed YoutubeTrack "ytsearch"). reflexivity.
  - apply (search_query_prefixed YoutubeMusicTrack "ytmsearch"). reflexivity.
  - apply (search_query_prefixed SoundcloudTrack "scsearch"). reflexivity.
  - reflexivity.
  - destruct node; reflexivity.
  - destruct node; reflexivity.
Qed.

End Search.

(** The partial query search of [YoutubeTrack] with no node given, against
    a lookup that would fail if it were called. *)
Lemma search_partial_short_circuit_witness :
  exists p,
    snd (run (answering 7 (Raise ClientConnectorError))
           (search YoutubeTrack "never gonna give you up" None true true true))
      = Return (OPartial p)
    /\ PartialResource.cls p = YoutubeTrack
    /\ PartialResource.query p = "ytsearch:never gonna give you up"
    /\ PartialResource.search p = true.
Proof.
  exact (proj2 (proj2 (search_partial_short_circuit
                         (answering 7 (Raise ClientConnectorError))
                         YoutubeTrack "never gonna give you up" None true))
           "ytsearch" eq_refl).
Defined.

(** C4 on a lookup that answers with two tracks. *)
Lemma search_first_result_witness :
  (exists t, head [example_track; example_track] = Some t
     /\ snd (run (answering 7 (Return (OList [example_track; example_track])))
              (search YoutubeTrack "never gonna give you up" None true true false))
        = Return (OTrack t))
  /\ snd (run (answering 7 (Return (OList [example_track; example_track])))
            (search YoutubeTrack "never gonna give you up" None true false false))
     = Return (OList [example_track; example_track]).
Proof.
  apply (search_first_result
           (answering 7 (Return (OList [example_track; example_track])))
           YoutubeTrack "never gonna give you up" None
           "ytsearch:never gonna give you up").
  - reflexivity.
  - discriminate.
  - reflexivity.
Defined.

(** C3, amended, on a lookup that answers [None], and on one that answers
    with the empty list while [returnFirst] is off. *)
Lemma search_lookup_nothing_witness :
  snd (run (answering 7 (Return ONone))
         (search SoundcloudTrack "no such song" (Some 3) true true false))
    = Return ONone
  /\ snd (run (answering 7 (Return (OList [])))
            (search SoundcloudTrack "no such song" (Some 3) true false false))
     = Return (OList []).
Proof.
  split.
  - apply (proj1 (search_lookup_nothing (answering 7 (Return ONone))
                    SoundcloudTrack "no such song" (Some 3) true true
                    "scsearch:no such song" eq_refl)).
    reflexivity.
  - apply (proj2 (search_lookup_nothing (answering 7 (Return (OList [])))
                    SoundcloudTrack "no such song" (Some 3) true false
                    "scsearch:no such song" eq_refl));
      reflexivity.
Defined.

(** C3 as stated fails on the empty list: it comes back as an empty list,
    which is not [None], when [returnFirst] is off, and the search raises
    [IndexError] when [returnFirst] is on. *)
Lemma search_empty_list_not_None :
  snd (run (answering 7 (Return (OList [])))
         (search YoutubeTrack "no such song" (Some 3) true false false))
    = Return (OList [])
  /\ snd (run (answering 7 (Return (OList [])))
            (search YoutubeTrack "no such song" (Some 3) true false false))
     <> Return ONone
  /\ snd (run (answering 7 (Return (OList [])))
            (search YoutubeTrack "no such song" (Some 3) true true false))
     = Raise IndexError.
Proof.
  split; [reflexivity |]. split; [discriminate | reflexivity].
Qed.

(** ** The session over a whole run: invariants *)

Section SessionRun.

Import Websocket.

Variables (host : string) (port : Z) (password userID : string).

Lemma connects_app l1 l2 : connects (l1 ++ l2) = (connects l1 ++ connects l2)%list.
Proof. apply List.filter_app. Qed.

Lemma writes_app_r l1 l2 : writes (l1 ++ l2) = (writes l1 ++ writes l2)%list.
Proof. apply List.filter_app. Qed.

(** Appending an operation that is no request for a websocket keeps the
    shape of the log, if a write among them goes to the connection. *)
Lemma log_after_connect_snoc req conn log o :
  is_connect o = false ->
  (is_write o = true ->
   exists c payload, conn = Some c /\ o = send_json c payload) ->
  log_after_connect req conn log ->
  log_after_connect req conn (log ++ [o]).
Proof.
  intros Hnc Hwr (pre & post & -> & Hcp & Hwp & Hcq & Hws).
  exists pre, (post ++ [o])%list.
  split; [by rewrite <- app_assoc |].
  split; [exact Hcp |]. split; [exact Hwp |].
  split.
  { rewrite connects_app, Hcq. cbn. rewrite Hnc. reflexivity. }
  rewrite writes_app_r. cbn.
  destruct (is_write o) eqn:Ho.
  - destruct (Hwr eq_refl) as (c & payload & -> & ->).
    intros o' Hin. apply elem_of_app in Hin as [Hin | Hin].
    + apply Hws. exact Hin.
    + apply list_elem_of_singleton in Hin as ->. eauto.
  - rewrite app_nil_r. exact Hws.
Qed.

Lemma connection_cases w :
  _connection (self w) = None \/ exists c, _connection (self w) = Some c.
Proof. destruct (_connection (self w)); eauto. Qed.

Lemma send_with_connection payload io w c :
  _connection (self w) = Some c ->
  send payload io w
    = (io, mkWorld (self w) (task w) (net w ++ [send_json c payload])).
Proof. intros H. unfold send. rewrite H. reflexivity. Qed.

Lemma session_inv_init :
  session_inv host port password userID (__init__ host port password userID).
Proof. repeat split. Qed.

Lemma session_inv_step w w' :
  step w w' ->
  session_inv host port password userID w ->
  session_inv host port password userID w'.
Proof.
  intros Hstep [Hcfg Hinv].
  destruct Hstep as [w Ht | w conn Ht | w e Ht | w payload io | w dst hs io];
    try rewrite Ht in Hinv.
  - (* connect, up to its await *)
    destruct Hinv as (Hc & Hcs & Hws).
    split; [exact Hcfg |]. cbn. split; [exact Hc |].
    exists (net w), []. destruct Hcfg as (<- & <- & <- & <-).
    repeat split; try assumption.
  - (* connect, resumed with the connection *)
    destruct Hinv as (Hc & pre & post & Hlog & Hcp & Hwp & Hcq & Hws).
    split; [exact Hcfg |]. cbn. exists conn. split; [reflexivity |].
    exists pre, post. repeat split; try assumption.
    rewrite Hws. intros o Hin. by apply elem_of_nil in Hin.
  - (* connect, resumed with an error *)
    split; [exact Hcfg |]. cbn. exact Hinv.
  - (* send *)
    destruct (connection_cases w) as [Hc | [c Hc]].
    + rewrite (send_without_connection _ _ _ Hc). split; [exact Hcfg | exact Hinv].
    + rewrite (send_with_connection _ _ _ _ Hc). split; [exact Hcfg |]. cbn.
      destruct (task w); try (destruct Hinv as [Hn _]; congruence).
      destruct Hinv as (c' & Hc' & Hlog). exists c'. split; [exact Hc' |].
      apply log_after_connect_snoc; [reflexivity | | exact Hlog].
      intros _. exists c, payload. split; [congruence | reflexivity].
  - (* get *)
    split; [exact Hcfg |]. cbn.
    destruct (task w).
    + destruct Hinv as (Hc & Hcs & Hws).
      rewrite connects_app, writes_app_r, Hcs, Hws. done.
    + destruct Hinv as [Hc Hlog]. split; [exact Hc |].
      apply log_after_connect_snoc; [reflexivity | discriminate | exact Hlog].
    + destruct Hinv as (c & Hc & Hlog). exists c. split; [exact Hc |].
      apply log_after_connect_snoc; [reflexivity | discriminate | exact Hlog].
    + destruct Hinv as [Hc Hlog]. split; [exact Hc |].
      apply log_after_connect_snoc; [reflexivity | discriminate | exact Hlog].
Qed.

Lemma session_inv_reachable w :
  rtc step (__init__ host port password userID) w ->
  session_inv host port password userID w.
Proof.
  intros Hreach.
  eapply (rtc_ind_r (fun w => session_inv host port password userID w));
    [ | | exact Hreach ].
  - apply session_inv_init.
  - intros w1 w2 _ Hstep IH. eapply session_inv_step; eassumption.
Qed.

(** X1. Over a whole run the session asks for a websocket at most once:
    not at all while the connect task is only scheduled, and once it has
    started exactly the request that the constructor arguments determine.
    The four constructor arguments are never changed. *)
Theorem session_connects_once w :
  rtc step (__init__ host port password userID) w ->
  same_config host port password userID w
  /\ connects (net w)
     = match task w with
       | Scheduled => []
       | _ => [connect_request_of host port password userID]
       end.
Proof.
  intros Hreach. destruct (session_inv_reachable w Hreach) as [Hcfg Hinv].
  split; [exact Hcfg |].
  assert (Hlog : forall conn,
             log_after_connect (connect_request_of host port password userID)
               conn (net w) ->
             connects (net w) = [connect_request_of host port password userID]).
  { intros conn (pre & post & -> & Hcp & _ & Hcq & _).
    rewrite connects_app, Hcp. unfold connects in *. cbn. rewrite Hcq.
    reflexivity. }
  destruct (task w).
  - tauto.
  - destruct Hinv as [_ H]. eauto.
  - destruct Hinv as (c & _ & H). eauto.
  - destruct Hinv as [_ H]. eauto.
Qed.

(** X2. At every point of a run the session holds a connection object
    exactly when its connect task has completed. *)
Theorem connection_iff_connect_completed w :
  rtc step (__init__ host port password userID) w ->
  (exists c, _connection (self w) = Some c) <-> connected w = true.
Proof.
  intros Hreach. destruct (session_inv_reachable w Hreach) as [_ Hinv].
  unfold connected. destruct (task w).
  - destruct Hinv as [Hc _]. rewrite Hc. split; [intros [c ?] |]; discriminate.
  - destruct Hinv as [Hc _]. rewrite Hc. split; [intros [c ?] |]; discriminate.
  - destruct Hinv as (c & Hc & _). split; eauto.
  - destruct Hinv as [Hc _]. rewrite Hc. split; [intros [c ?] |]; discriminate.
Qed.

(** X3. Whatever has been written during a run was written to the
    connection the session holds now, and after the request for the
    websocket: the log up to that request has no write. *)
Theorem writes_go_to_the_connection w o :
  rtc step (__init__ host port password userID) w ->
  o ∈ writes (net w) ->
  (exists c payload,
      o = send_json c payload /\ _connection (self w) = Some c)
  /\ (exists pre post,
        net w = (pre ++ connect_request_of host port password userID :: post)%list
        /\ writes pre = []).
Proof.
  intros Hreach Hin. destruct (session_inv_reachable w Hreach) as [_ Hinv].
  assert (Hnone : log_after_connect (connect_request_of host port password userID)
                    None (net w) -> writes (net w) = []).
  { intros (pre & post & -> & _ & Hwp & _ & Hws).
    rewrite writes_app_r, Hwp. exact Hws. }
  destruct (task w).
  - destruct Hinv as (_ & _ & Hw). rewrite Hw in Hin. by apply elem_of_nil in Hin.
  - destruct Hinv as [_ H]. rewrite (Hnone H) in Hin. by apply elem_of_nil in Hin.
  - destruct Hinv as (c & Hc & pre & post & Hlog & _ & Hwp & _ & Hws).
    rewrite Hlog, writes_app_r, Hwp in Hin. cbn in Hin.
    destruct (Hws o Hin) as [payload ->]. split; eauto.
  - destruct Hinv as [_ H]. rewrite (Hnone H) in Hin. by apply elem_of_nil in Hin.
Qed.

End SessionRun.

Lemma example_connected_reachable : rtc Websocket.step example_session example_connected.
Proof.
  eapply rtc_l; [apply Websocket.step_connect_start; reflexivity |].
  apply rtc_once. apply Websocket.step_connect_resume. reflexivity.
Defined.

Lemma example_failed_reachable : rtc Websocket.step example_session example_failed.
Proof.
  eapply rtc_l; [apply Websocket.step_connect_start; reflexivity |].
  apply rtc_once. apply Websocket.step_connect_fail. reflexivity.
Defined.

(** X1 on a session that has connected and sent one payload. *)
Lemma session_connects_once_witness :
  connects (Websocket.net
              (snd (Websocket.send example_play (Return tt) example_connected)))
  = [Websocket.ws_connect "ws://127.0.0.1:2333"
       (Websocket.connect_headers (Websocket.self example_session)) 60].
Proof.
  refine (proj2 (session_connects_once "127.0.0.1" 2333 "youshallnotpass"
                   "619165194" _ _)).
  eapply rtc_r; [exact example_connected_reachable |].
  apply Websocket.step_send.
Defined.

(** X2 on the connected session and on the one whose connect failed. *)
Lemma connection_iff_connect_completed_witness :
  ((exists c, Websocket._connection (Websocket.self example_connected) = Some c)
   <-> Websocket.connected example_connected = true)
  /\ ((exists c, Websocket._connection (Websocket.self example_failed) = Some c)
      <-> Websocket.connected example_failed = true).
Proof.
  split.
  - exact (connection_iff_connect_completed _ _ _ _ _ example_connected_reachable).
  - exact (connection_iff_connect_completed _ _ _ _ _ example_failed_reachable).
Defined.

(** X3 on the write of a connected session. *)
Lemma writes_go_to_the_connection_witness :
  exists c payload,
    Websocket.send_json 5 example_play = Websocket.send_json c payload
    /\ Websocket._connection
         (Websocket.self
            (snd (Websocket.send example_play (Return tt) example_connected)))
       = Some c.
Proof.
  refine (proj1 (writes_go_to_the_connection "127.0.0.1" 2333 "youshallnotpass"
                   "619165194"
                   (snd (Websocket.send example_play (Return tt) example_connected))
                   (Websocket.send_json 5 example_play) _ _)).
  - eapply rtc_r; [exact example_connected_reachable |].
    apply Websocket.step_send.
  - apply list_elem_of_here.
Defined.

Section SessionAfterConnect.

Import Websocket.

(** Once the connect task is over, with a connection or with an error, no
    step changes the task or the session's attributes. *)
Lemma step_task_over w w' :
  step w w' ->
  task w = Completed \/ (exists e, task w = Failed e) ->
  task w' = task w /\ self w' = self w.
Proof.
  intros Hstep Hover.
  destruct Hstep as [w Ht | w conn Ht | w e Ht | w payload io | w dst hs io].
  - rewrite Ht in Hover. destruct Hover as [? | [? ?]]; discriminate.
  - rewrite Ht in Hover. destruct Hover as [? | [? ?]]; discriminate.
  - rewrite Ht in Hover. destruct Hover as [? | [? ?]]; discriminate.
  - unfold send. destruct (_connection (self w)); done.
  - done.
Qed.

Lemma rtc_task_over w w' :
  rtc step w w' ->
  task w = Completed \/ (exists e, task w = Failed e) ->
  task w' = task w /\ self w' = self w.
Proof.
  intros Hrun Hover.
  eapply (rtc_ind_r (fun w' => task w' = task w /\ self w' = self w));
    [ | | exact Hrun ].
  - done.
  - intros w1 w2 _ Hstep [Ht Hs].
    destruct (step_task_over w1 w2 Hstep) as [Ht' Hs'].
    { rewrite Ht. exact Hover. }
    split; congruence.
Qed.

(** X4. On a session that holds a connection, [send] hands the payload
    as it is to that connection and gives back whatever the transport
    gives back, an error included; payloads sent one after the other are
    appended to the log in the order of the calls, and the session's
    attributes and its task stay as they are. *)
Theorem send_all_in_call_order w c payloads :
  _connection (self w) = Some c ->
  net (send_all payloads w)
    = (net w ++ map (fun p => send_json c (fst p)) payloads)%list
  /\ self (send_all payloads w) = self w
  /\ task (send_all payloads w) = task w
  /\ (forall payload io, fst (send payload io w) = io).
Proof.
  intros Hc.
  assert (Hfst : forall payload io, fst (send payload io w) = io).
  { intros payload io. unfold send. rewrite Hc. reflexivity. }
  revert w Hc Hfst. induction payloads as [| [payload io] rest IH]; intros w Hc Hfst.
  - cbn. rewrite app_nil_r. done.
  - cbn [send_all map fst].
    assert (Hsend : snd (send payload io w)
                    = mkWorld (self w) (task w) (net w ++ [send_json c payload])).
    { unfold send. rewrite Hc. reflexivity. }
    rewrite Hsend.
    destruct (IH (mkWorld (self w) (task w) (net w ++ [send_json c payload])))
      as (Hnet & Hself & Htask & _).
    { exact Hc. }
    { intros p i. unfold send. cbn. rewrite Hc. reflexivity. }
    rewrite Hnet, Hself, Htask. cbn. rewrite <- app_assoc. done.
Qed.

(** X5. A failed connect is final. After the connect task has ended with
    an error, the session never tries again: whatever the caller does
    next, the task stays failed with that error, there is still the one
    request for a websocket in the log, and every [send] raises
    [AttributeError] and writes nothing. *)
Theorem connect_failure_is_final host port password userID w w' e :
  rtc step (__init__ host port password userID) w ->
  task w = Failed e ->
  rtc step w w' ->
  task w' = Failed e
  /\ connects (net w') = [connect_request_of host port password userID]
  /\ (forall payload io, send payload io w' = (Raise AttributeError, w')).
Proof.
  intros Hreach Hfail Hrun.
  destruct (rtc_task_over w w' Hrun) as [Ht _]; [eauto |].
  rewrite Hfail in Ht.
  assert (Hreach' : rtc step (__init__ host port password userID) w')
    by (etrans; eassumption).
  destruct (session_inv_reachable host port password userID w' Hreach')
    as [_ Hinv].
  rewrite Ht in Hinv. destruct Hinv as (Hc & pre & post & Hlog & Hcp & _ & Hcq & _).
  split; [exact Ht |]. split.
  - rewrite Hlog, connects_app, Hcp. unfold connects in *. cbn. rewrite Hcq.
    reflexivity.
  - intros payload io. apply send_without_connection. exact Hc.
Qed.

(** X6. A connection, once there, is kept. After the connect task has
    completed no step replaces or drops the connection object, and none
    changes host, port, password or user id: every later [send] goes to
    that same connection. *)
Theorem connection_is_kept w w' c payload io :
  connected w = true ->
  _connection (self w) = Some c ->
  rtc step w w' ->
  connected w' = true
  /\ self w' = self w
  /\ net (snd (send payload io w')) = (net w' ++ [send_json c payload])%list.
Proof.
  intros Hconn Hc Hrun.
  assert (Ht : task w = Completed).
  { unfold connected in Hconn. destruct (task w); done. }
  destruct (rtc_task_over w w' Hrun) as [Ht' Hs]; [eauto |].
  split; [| split].
  - unfold connected. rewrite Ht', Ht. reflexivity.
  - exact Hs.
  - unfold send. rewrite Hs, Hc. reflexivity.
Qed.

(** X7. [get] does not need the websocket and leaves it alone: in any
    state, also before the connect task has run, it puts one request with
    the destination and the headers as given on the log and gives back the
    response, or the error, as it comes; it writes nothing to the
    connection, asks for no websocket, and a [send] after it does what it
    would have done without it. *)
Theorem get_leaves_websocket_alone w destination headers io payload io' :
  fst (get destination headers io w) = io
  /\ net (snd (get destination headers io w))
     = (net w ++ [http_get destination headers])%list
  /\ writes (net (snd (get destination headers io w))) = writes (net w)
  /\ connects (net (snd (get destination headers io w))) = connects (net w)
  /\ fst (send payload io' (snd (get destination headers io w)))
     = fst (send payload io' w)
  /\ writes (net (snd (send payload io' (snd (get destination headers io w)))))
     = writes (net (snd (send payload io' w))).
Proof.
  split; [reflexivity |]. split; [reflexivity |].
  split; [cbn; rewrite writes_app; cbn; apply app_nil_r |].
  split; [cbn; rewrite connects_app; cbn; apply app_nil_r |].
  unfold send, get. cbn. destruct (_connection (self w)); cbn.
  - split; [reflexivity |].
    rewrite !writes_app. cbn. rewrite app_nil_r. reflexivity.
  - split; [reflexivity |]. rewrite writes_app. cbn. apply app_nil_r.
Qed.

End SessionAfterConnect.

(** X4 on the connected session: a play, then a pause whose write fails. *)
Lemma send_all_in_call_order_witness :
  Websocket.net
    (send_all [(example_play, Return tt);
               (example_pause, Raise ConnectionResetError)]
       example_connected)
  = (Websocket.net example_connected
       ++ [Websocket.send_json 5 example_play;
           Websocket.send_json 5 example_pause])%list.
Proof.
  exact (proj1 (send_all_in_call_order example_connected 5
                  [(example_play, Return tt);
                   (example_pause, Raise ConnectionResetError)]
                  eq_refl)).
Defined.

(** X5 on the session whose connect failed, after a [get] and a [send]. *)
Lemma connect_failure_is_final_witness :
  Websocket.send example_play (Return tt)
    (snd (Websocket.get "http://127.0.0.1:2333/loadtracks" ∅ (Return PNone)
            example_failed))
  = (Raise AttributeError,
     snd (Websocket.get "http://127.0.0.1:2333/loadtracks" ∅ (Return PNone)
            example_failed)).
Proof.
  refine (proj2 (proj2 (connect_failure_is_final "127.0.0.1" 2333
                          "youshallnotpass" "619165194" example_failed _
                          ClientConnectorError _ _ _)) _ _).
  - exact example_failed_reachable.
  - reflexivity.
  - apply rtc_once. apply Websocket.step_get.
Defined.

(** X6 on the connected session, after a [send] and a [get]. *)
Lemma connection_is_kept_witness :
  Websocket.connected
    (snd (Websocket.get "http://127.0.0.1:2333/loadtracks" ∅ (Return PNone)
            (snd (Websocket.send example_play (Return tt) example_connected))))
  = true.
Proof.
  refine (proj1 (connection_is_kept example_connected _ 5 example_pause
                   (Return tt) _ _ _)).
  - reflexivity.
  - reflexivity.
  - eapply rtc_l; [apply Websocket.step_send |].
    apply rtc_once. apply Websocket.step_get.
Defined.

(** ** More on [Stats.__init__] and [Track.__init__] *)

Lemma Stats_init_success_required node data st :
  Stats.__init__ node data = Return st -> Stats_required_present data.
Proof.
  intros Hok path Hin Hmiss.
  destruct (Stats_init_missing_raises node data path Hin Hmiss) as [e He].
  congruence.
Qed.

Lemma Stats_init_frameStats_not_dict node data v :
  Stats_required_present data ->
  data !! "frameStats" = Some v -> is_dict v = false ->
  Stats.__init__ node data = Raise AttributeError.
Proof.
  intros Hall Hfs Hv.
  destruct (Stats_required_present_fields data Hall)
    as (u & p & pp & mr & mu & mf & ma & cc & sl & ll & H1 & H2 & H3 & H4
        & H5 & H6 & H7 & H8 & H9 & H10).
  rewrite (Stats_init_required_present node data u p pp mr mu mf ma cc sl ll)
    by assumption.
  unfold dict_get. rewrite Hfs. cbn beta iota zeta.
  destruct v; try discriminate Hv; reflexivity.
Qed.

(** X8. [Stats.__init__] gives a [Stats] exactly for the payloads that
    have every field outside the frame-timing block and whose frame-timing
    block, if there is one, is a dict; the [Stats] then refers to the node
    it was given. *)
Theorem Stats_init_succeeds_iff node data :
  ((exists st, Stats.__init__ node data = Return st)
   <-> Stats_required_present data /\ frameStats_usable data)
  /\ (forall st, Stats.__init__ node data = Return st -> Stats.node st = node).
Proof.
  split; [split |].
  - intros [st Hok]. split.
    + eapply Stats_init_success_required. exact Hok.
    + intros v Hfs. destruct (is_dict v) eqn:Hv; [reflexivity |].
      rewrite (Stats_init_frameStats_not_dict node data v) in Hok;
        [discriminate | | assumption | assumption].
      eapply Stats_init_success_required. exact Hok.
  - intros [Hall Hfs].
    destruct (Stats_init_frame_defaults node data Hall) as [Hsome Hnone].
    assert (Hcase : data !! "frameStats" = None
                    \/ exists v, data !! "frameStats" = Some v)
      by (destruct (data !! "frameStats"); eauto).
    destruct Hcase as [E | [v E]].
    + destruct (Hnone E) as (st & Hst & _). eauto.
    + specialize (Hfs v E). destruct v; try discriminate Hfs.
      destruct (Hsome _ E) as (st & Hst & _). eauto.
  - intros st Hok.
    pose proof (Stats_init_success_required node data st Hok) as Hall.
    destruct (Stats_required_present_fields data Hall)
      as (u & p & pp & mr & mu & mf & ma & cc & sl & ll & H1 & H2 & H3 & H4
          & H5 & H6 & H7 & H8 & H9 & H10).
    rewrite (Stats_init_required_present node data u p pp mr mu mf ma cc sl ll)
      in Hok by assumption.
    unfold get, obind in Hok. cbn beta iota zeta in Hok.
    destruct (dict_get data "frameStats" (PDict ∅)); try discriminate Hok.
    injection Hok as <-. reflexivity.
Qed.

(** X9. A frame-timing block that is there but is no dict, such as a JSON
    [null], is not taken for an absent one: with every other field in
    place the constructor raises [AttributeError]. *)
Theorem Stats_init_frameStats_null node data v :
  Stats_required_present data ->
  data !! "frameStats" = Some v -> is_dict v = false ->
  Stats.__init__ node data = Raise AttributeError
  /\ Stats.__init__ node (delete "frameStats" data) <> Raise AttributeError.
Proof.
  intros Hall Hfs Hv. split.
  - eapply Stats_init_frameStats_not_dict; eassumption.
  - assert (Hall' : Stats_required_present (delete "frameStats" data)).
    { intros path Hin. specialize (Hall path Hin).
      unfold missing_field in *. unfold Stats_required in Hin.
      repeat (apply elem_of_cons in Hin as [-> | Hin]);
        [ .. | by apply elem_of_nil in Hin ];
        cbn [path_lookup] in *; rewrite lookup_delete_ne by done; exact Hall. }
    destruct (Stats_init_frame_defaults node _ Hall') as [_ Hnone].
    destruct Hnone as (st & Hst & _); [apply lookup_delete_eq |].
    rewrite Hst. discriminate.
Qed.

(** X10. [Stats.__init__] looks at six keys of the payload and at nothing
    else: two payloads that agree on them give the same outcome. *)
Theorem Stats_init_reads_its_keys_only node data data' :
  (forall k, k ∈ Stats_keys -> data !! k = data' !! k) ->
  Stats.__init__ node data = Stats.__init__ node data'.
Proof.
  intros Hagree. unfold Stats.__init__, dict_getitem, dict_get.
  rewrite !(Hagree "uptime"), !(Hagree "players"), !(Hagree "playingPlayers"),
    !(Hagree "memory"), !(Hagree "cpu"), !(Hagree "frameStats")
    by (unfold Stats_keys; in_list).
  reflexivity.
Qed.

Ltac rewrite_lookups :=
  repeat match goal with
         | H : ?m !! ?k = _ |- context [?m !! ?k] => rewrite H
         end.

(** Runs an [__init__] whose outcome is [H]'s left-hand side one
    statement further. *)
Ltac step_init H :=
  lazymatch type of H with
  | match ?s with _ => _ end = _ =>
      let x := head_scrutinee s in
      destruct x eqn:?; cbn beta iota zeta in H
  end.

Ltac path_is_missing p :=
  exists p; split;
  [ in_list
  | unfold missing_field; cbn [path_lookup]; rewrite_lookups; reflexivity ].

Ltac some_path_is_missing :=
  first [ path_is_missing ["uptime"] | path_is_missing ["players"]
        | path_is_missing ["playingPlayers"] | path_is_missing ["memory"]
        | path_is_missing ["memory"; "reservable"]
        | path_is_missing ["memory"; "used"]
        | path_is_missing ["memory"; "free"]
        | path_is_missing ["memory"; "allocated"]
        | path_is_missing ["cpu"] | path_is_missing ["cpu"; "cores"]
        | path_is_missing ["cpu"; "systemLoad"]
        | path_is_missing ["cpu"; "lavalinkLoad"] ].

Ltac all_paths_present :=
  let path := fresh "path" in
  let Hin := fresh "Hin" in
  intros path Hin; unfold Stats_required in Hin;
  repeat (apply elem_of_cons in Hin as [-> | Hin]);
  [ .. | by apply elem_of_nil in Hin ];
  unfold missing_field; cbn [path_lookup]; rewrite_lookups; discriminate.

(** X11. What the error of [Stats.__init__] tells. A [KeyError] means that
    a required field is missing; a [TypeError] that the ["memory"] or the
    ["cpu"] entry is no dict; an [AttributeError] that everything required
    is there and the frame-timing block is no dict. There is no other
    error. *)
Theorem Stats_init_error_kinds node data e :
  Stats.__init__ node data = Raise e ->
  (e = KeyError
   /\ exists path, path ∈ Stats_required /\ missing_field data path)
  \/ (e = TypeError
      /\ exists k v, (k = "memory" \/ k = "cpu")
                     /\ data !! k = Some v /\ is_dict v = false)
  \/ (e = AttributeError
      /\ Stats_required_present data
      /\ exists v, data !! "frameStats" = Some v /\ is_dict v = false).
Proof.
  intros H. unfold_init. repeat step_init H;
    try discriminate H; injection H as <-.
  all: first
    [ left; split; [reflexivity |]; some_path_is_missing
    | right; left; split; [reflexivity |];
      first [ exists "memory"; eexists;
              (split; [ by left | split; [eassumption | reflexivity] ])
            | exists "cpu"; eexists;
              (split; [ by right | split; [eassumption | reflexivity] ]) ]
    | right; right; split; [reflexivity |];
      split; [ all_paths_present | eexists; split; reflexivity ] ].
Qed.

(** X12. [Track.__init__] gives a track exactly when the metadata has the
    eight fields. The track then carries the id as given, the metadata as
    a whole, and under each accessor the entry of the metadata it is named
    after ([type] is the entry ["sourceName"]). *)
Theorem Track_init_decodes id info :
  ((exists t, Track.__init__ id info = Return t)
   <-> (forall k, k ∈ Track_required -> is_Some (info !! k)))
  /\ (forall t, Track.__init__ id info = Return t ->
      Track.id t = id /\ Track._info t = info
      /\ info !! "identifier" = Some (Track.identifier t)
      /\ info !! "isSeekable" = Some (Track.isSeekable t)
      /\ info !! "author" = Some (Track.author t)
      /\ info !! "length" = Some (Track.length t)
      /\ info !! "isStream" = Some (Track.isStream t)
      /\ info !! "sourceName" = Some (Track.type t)
      /\ info !! "title" = Some (Track.title t)
      /\ info !! "uri" = Some (Track.uri t)).
Proof.
  split; [split |].
  - intros [t Hok] k Hin.
    destruct (info !! k) eqn:Hk; [eauto |].
    destruct (Track_init_missing_raises id info k Hin Hk) as [e He]. congruence.
  - intros Hall.
    destruct (Hall "identifier") as [v1 H1]; [in_list |].
    destruct (Hall "isSeekable") as [v2 H2]; [in_list |].
    destruct (Hall "author") as [v3 H3]; [in_list |].
    destruct (Hall "length") as [v4 H4]; [in_list |].
    destruct (Hall "isStream") as [v5 H5]; [in_list |].
    destruct (Hall "sourceName") as [v6 H6]; [in_list |].
    destruct (Hall "title") as [v7 H7]; [in_list |].
    destruct (Hall "uri") as [v8 H8]; [in_list |].
    eexists. unfold_init. rewrite H1, H2, H3, H4, H5, H6, H7, H8. reflexivity.
  - intros t H. unfold_init. repeat step_init H; try discriminate H.
    injection H as <-. cbn. tauto.
Qed.

(** X13. The only error of [Track.__init__] is [KeyError], and it means
    that one of the eight fields is missing. *)
Theorem Track_init_fails_with_KeyError id info e :
  Track.__init__ id info = Raise e ->
  e = KeyError /\ exists k, k ∈ Track_required /\ info !! k = None.
Proof.
  intros H. unfold_init. repeat step_init H; try discriminate H;
    injection H as <-; (split; [reflexivity |]);
    first [ exists "identifier"; split; [in_list | assumption]
          | exists "isSeekable"; split; [in_list | assumption]
          | exists "author"; split; [in_list | assumption]
          | exists "length"; split; [in_list | assumption]
          | exists "isStream"; split; [in_list | assumption]
          | exists "sourceName"; split; [in_list | assumption]
          | exists "title"; split; [in_list | assumption]
          | exists "uri"; split; [in_list | assumption] ].
Qed.

(** X14. The eight fields of a track come from eight keys of the metadata
    and from nothing else: on metadata that agrees with [info] on those
    keys, [Track.__init__] has the outcome it has on [info], but for the
    raw metadata that the track keeps. *)
Theorem Track_init_reads_its_keys_only id info info' :
  (forall k, k ∈ Track_required -> info !! k = info' !! k) ->
  Track.__init__ id info'
  = (t <~ Track.__init__ id info ;;
     Return (Track.mk (Track.id t) info' (Track.identifier t)
               (Track.isSeekable t) (Track.author t) (Track.length t)
               (Track.isStream t) (Track.type t) (Track.title t)
               (Track.uri t)))%py.
Proof.
  intros Hagree. unfold Track.__init__, dict_getitem.
  rewrite <- !(Hagree "identifier"), <- !(Hagree "isSeekable"),
    <- !(Hagree "author"), <- !(Hagree "length"), <- !(Hagree "isStream"),
    <- !(Hagree "sourceName"), <- !(Hagree "title"), <- !(Hagree "uri")
    by (unfold Track_required; in_list).
  unfold obind.
  repeat match goal with
         | |- context [match info !! ?k with _ => _ end] => destruct (info !! k)
         end; reflexivity.
Qed.

Ltac example_paths_present :=
  let path := fresh "path" in
  let Hin := fresh "Hin" in
  intros path Hin; unfold Stats_required in Hin;
  repeat (apply elem_of_cons in Hin as [-> | Hin]);
  [ .. | by apply elem_of_nil in Hin ]; discriminate.

Lemma example_stats_full_present : Stats_required_present example_stats_full.
Proof. example_paths_present. Defined.

Lemma example_stats_null_frames_present :
  Stats_required_present example_stats_null_frames.
Proof. example_paths_present. Defined.

(** X8 on the full payload. *)
Lemma Stats_init_succeeds_iff_witness :
  exists st, Stats.__init__ 0 example_stats_full = Return st.
Proof.
  apply (proj2 (proj1 (Stats_init_succeeds_iff 0 example_stats_full))).
  split; [exact example_stats_full_present |].
  intros v Hv. injection Hv as <-. reflexivity.
Defined.

(** X9 on a payload whose frame-timing block is [null]. *)
Lemma Stats_init_frameStats_null_witness :
  Stats.__init__ 0 example_stats_null_frames = Raise AttributeError.
Proof.
  refine (proj1 (Stats_init_frameStats_null 0 example_stats_null_frames PNone
                   example_stats_null_frames_present _ _)); reflexivity.
Defined.

(** X10 on the statistics message, which has an ["op"] entry beside the
    figures. *)
Lemma Stats_init_reads_its_keys_only_witness :
  Stats.__init__ 0 example_stats_message = Stats.__init__ 0 example_stats_full.
Proof.
  apply Stats_init_reads_its_keys_only.
  intros k Hin. unfold Stats_keys in Hin.
  repeat (apply elem_of_cons in Hin as [-> | Hin]);
    [ .. | by apply elem_of_nil in Hin ]; reflexivity.
Defined.

(** X11 on a payload whose ["cpu"] entry is a number. *)
Lemma Stats_init_error_kinds_witness :
  (TypeError = KeyError
   /\ exists path, path ∈ Stats_required
        /\ missing_field (<["cpu" := PInt 8]> example_stats_full) path)
  \/ (TypeError = TypeError
      /\ exists k v, (k = "memory" \/ k = "cpu")
           /\ <["cpu" := PInt 8]> example_stats_full !! k = Some v
           /\ is_dict v = false)
  \/ (TypeError = AttributeError
      /\ Stats_required_present (<["cpu" := PInt 8]> example_stats_full)
      /\ exists v, <["cpu" := PInt 8]> example_stats_full !! "frameStats" = Some v
           /\ is_dict v = false).
Proof.
  apply (Stats_init_error_kinds 0 (<["cpu" := PInt 8]> example_stats_full) TypeError).
  reflexivity.
Defined.

(** X12 on the metadata of one track. *)
Lemma Track_init_decodes_witness :
  Track.__init__ "QAAAjQIAJVJpY2s=" example_track_info = Return example_track
  /\ example_track_info !! "sourceName" = Some (Track.type example_track).
Proof.
  assert (H : Track.__init__ "QAAAjQIAJVJpY2s=" example_track_info
              = Return example_track) by reflexivity.
  split; [exact H |].
  apply (proj2 (Track_init_decodes "QAAAjQIAJVJpY2s=" example_track_info)
           example_track H).
Defined.

(** X13 on metadata without its ["title"]. *)
Lemma Track_init_fails_with_KeyError_witness :
  KeyError = KeyError
  /\ exists k, k ∈ Track_required /\ delete "title" example_track_info !! k = None.
Proof.
  apply (Track_init_fails_with_KeyError "QAAAjQIAJVJpY2s="
           (delete "title" example_track_info) KeyError).
  reflexivity.
Defined.

(** X14 on metadata with a ["position"] entry. *)
Lemma Track_init_reads_its_keys_only_witness :
  Track.__init__ "QAAAjQIAJVJpY2s=" example_track_info_position
  = Return (Track.mk "QAAAjQIAJVJpY2s=" example_track_info_position
              (PStr "dQw4w9WgXcQ") (PBool true) (PStr "Rick Astley")
              (PInt 212000) (PBool false) (PStr "youtube")
              (PStr "Never Gonna Give You Up")
              (PStr "https://www.youtube.com/watch?v=dQw4w9WgXcQ")).
Proof.
  rewrite (Track_init_reads_its_keys_only "QAAAjQIAJVJpY2s=" example_track_info
             example_track_info_position).
  - reflexivity.
  - intros k Hin. unfold Track_required in Hin.
    repeat (apply elem_of_cons in Hin as [-> | Hin]);
      [ .. | by apply elem_of_nil in Hin ]; reflexivity.
Defined.

(** ** More on [Playable.search] *)

Section SearchRuns.

Variable env : Collaborators.

Ltac run_search' :=
  unfold search, getattr_searchType, lookup_query, resolve, expected_calls in *;
  cbn [cbind run ret obind fst snd lookups List.filter is_lookup
       PartialResource.__init__ subscript0 is_not_None andb app] in *.

(** X15. The calls of a search are decided by its arguments alone,
    whatever the lookup answers: the pool is asked first and only when no
    node is given, and the lookup is called last, once, on the node given
    or taken from the pool, when the search is not partial and its class
    has what the lookup query needs. A query search on a class without a
    search tag still asks the pool and then stops. *)
Theorem search_calls cls query node useQuery returnFirst partial :
  fst (run env (search cls query node useQuery returnFirst partial))
  = expected_calls env cls query node useQuery partial.
Proof.
  run_search'.
  destruct node, useQuery, partial; cbn;
    try destruct (_searchType cls); cbn; try reflexivity;
    destruct (node_getTracks env _ cls _) as [r |]; try reflexivity;
    destruct r as [| | [|] | |], returnFirst; reflexivity.
Qed.

(** X16. An error of the lookup is not caught: the search raises the very
    error that the lookup raised, for either kind of search and either
    value of [returnFirst]. *)
Theorem search_lookup_error_propagates cls query node useQuery returnFirst q e :
  lookup_query cls query useQuery = Some q ->
  node_getTracks env (resolve env node) cls q = Raise e ->
  snd (run env (search cls query node useQuery returnFirst false)) = Raise e.
Proof.
  intros Hq He. rewrite (search_result env _ _ _ _ _ _ Hq), He. reflexivity.
Qed.

(** X17. [returnFirst] takes the first element by subscript, so on a query
    search it fails on an answer that is neither [None] nor a list: for a
    playlist or a single track the search raises [TypeError]. Without
    [returnFirst], or on an identifier search, such an answer is returned
    as it is. *)
Theorem search_returnFirst_needs_a_list cls query node useQuery returnFirst q r :
  lookup_query cls query useQuery = Some q ->
  node_getTracks env (resolve env node) cls q = Return r ->
  is_not_None r = true -> is_list r = false ->
  snd (run env (search cls query node useQuery returnFirst false))
  = if useQuery && returnFirst then Raise TypeError else Return r.
Proof.
  intros Hq Hr Hnn Hnl. rewrite (search_result env _ _ _ _ _ _ Hq), Hr. cbn.
  rewrite Hnn. destruct (useQuery && returnFirst); [| reflexivity].
  destruct r; try discriminate; reflexivity.
Qed.

(** X18. A partial resource keeps the lookup query, not the query the
    caller gave. Searched again as an identifier, on its class and with
    its query, it calls the lookup exactly as the search it stands for
    would have, and returns what the lookup answers. Searched again with
    its own flag after a query search, the tag is put in front a second
    time. *)
Theorem search_partial_then_resolve cls query node useQuery returnFirst returnFirst' q p :
  lookup_query cls query useQuery = Some q ->
  snd (run env (search cls query node useQuery returnFirst true))
    = Return (OPartial p) ->
  lookups (fst (run env (search (PartialResource.cls p) (PartialResource.query p)
                           node false returnFirst' false)))
    = [EvGetTracks (resolve env node) cls q]
  /\ snd (run env (search (PartialResource.cls p) (PartialResource.query p)
                     node false returnFirst' false))
    = node_getTracks env (resolve env node) cls q
  /\ (forall tag, useQuery = true -> _searchType cls = Some tag ->
      lookups (fst (run env (search (PartialResource.cls p)
                               (PartialResource.query p) node
                               (PartialResource.search p) returnFirst' false)))
      = [EvGetTracks (resolve env node) cls (tag ++ ":" ++ tag ++ ":" ++ query)]).
Proof.
  intros Hq Hp.
  assert (Hpeq : p = PartialResource.mk cls q useQuery).
  { revert Hp. run_search'.
    destruct node, useQuery; cbn in *;
      try (destruct (_searchType cls); [| discriminate]);
      injection Hq as <-; cbn; intros [= <-]; reflexivity. }
  subst p. cbn [PartialResource.cls PartialResource.query PartialResource.search
                PartialResource._cls PartialResource._query PartialResource._search].
  split; [| split].
  - apply search_lookup_call. reflexivity.
  - rewrite (search_result env cls q node false returnFirst' q eq_refl).
    cbn. destruct (node_getTracks env _ cls q) as [[] |]; reflexivity.
  - intros tag -> Htag. apply search_lookup_call.
    unfold lookup_query in *. rewrite Htag in *.
    injection Hq as <-. reflexivity.
Qed.

End SearchRuns.

(** X15 on a query search of [YoutubePlaylist] with no node given: the
    pool is asked, the lookup is not. *)
Lemma search_calls_witness :
  fst (run (answering 7 (Return ONone))
         (search YoutubePlaylist "lofi" None true true false))
  = [EvGetNode].
Proof.
  exact (search_calls (answering 7 (Return ONone))
           YoutubePlaylist "lofi" None true true false).
Defined.

(** X16 on a lookup that cannot reach the node. *)
Lemma search_lookup_error_propagates_witness :
  snd (run (answering 7 (Raise ClientConnectorError))
         (search YoutubeTrack "never gonna give you up" None true true false))
  = Raise ClientConnectorError.
Proof.
  apply (search_lookup_error_propagates
           (answering 7 (Raise ClientConnectorError))
           YoutubeTrack "never gonna give you up" None true true
           "ytsearch:never gonna give you up").
  - reflexivity.
  - reflexivity.
Defined.

(** X17 on a lookup that answers a query search with a playlist. *)
Lemma search_returnFirst_needs_a_list_witness :
  snd (run (answering 7 (Return (OMulti example_playlist)))
         (search YoutubeTrack "favourites" (Some 3) true true false))
  = Raise TypeError.
Proof.
  apply (search_returnFirst_needs_a_list
           (answering 7 (Return (OMulti example_playlist)))
           YoutubeTrack "favourites" (Some 3) true true
           "ytsearch:favourites" (OMulti example_playlist));
    reflexivity.
Defined.

(** X18 on the partial resource of a query search of [SoundcloudTrack]. *)
Lemma search_partial_then_resolve_witness :
  lookups (fst (run (answering 7 (Return (OList [example_track])))
                  (search SoundcloudTrack "scsearch:rick" (Some 3) false true false)))
  = [EvGetTracks 3 SoundcloudTrack "scsearch:rick"].
Proof.
  apply (proj1 (search_partial_then_resolve
                  (answering 7 (Return (OList [example_track])))
                  SoundcloudTrack "rick" (Some 3) true true true "scsearch:rick"
                  (PartialResource.mk SoundcloudTrack "scsearch:rick" true)
                  eq_refl eq_refl)).
Defined.

(** ** The class statements of tracks.py *)

(** The order of every class is defined: no class statement of the module
    is refused for an inconsistent hierarchy. *)
Example mro_YoutubeTrack :
  mro (cls_resource YoutubeTrack)
  = Some [cls_resource YoutubeTrack; cls_Track; cls_resource Playable; cls_object].
Proof. reflexivity. Qed.

Example mro_YoutubePlaylist :
  mro (cls_resource YoutubePlaylist)
  = Some [cls_resource YoutubePlaylist; cls_MultiTrack; cls_resource Playable;
          cls_object].
Proof. reflexivity. Qed.

(** X19. What the class statements give each resource class. [search] is
    [Playable]'s for [Playable] and its four subclasses, and [Track] and
    [MultiTrack] themselves have none. The search tag of a class is found
    on the class itself or nowhere, and it is found exactly where the
    model of [search] has one. The constructor of the three track classes
    is [Track]'s and that of [YoutubePlaylist] is [MultiTrack]'s: the
    [__init__] of [Playable], which takes anything, comes after them in
    the order and runs for [Playable] alone. *)
Theorem resource_class_attributes (c : ResourceCls) :
  class_getattr (cls_resource c) "search" = Some (cls_resource Playable)
  /\ class_getattr cls_Track "search" = None
  /\ class_getattr cls_MultiTrack "search" = None
  /\ class_getattr (cls_resource c) "_searchType"
     = match _searchType c with
       | Some _ => Some (cls_resource c)
       | None => None
       end
  /\ class_getattr (cls_resource c) "_trackCls"
     = match _trackCls c with
       | Some _ => Some (cls_resource c)
       | None => None
       end
  /\ class_getattr (cls_resource c) "__init__"
     = match c with
       | Playable => Some (cls_resource Playable)
       | YoutubePlaylist => Some cls_MultiTrack
       | _ => Some cls_Track
       end.
Proof.
  destruct c; repeat split; vm_compute; reflexivity.
Qed.

(** ** The partial search, class by class *)

Section PartialSearch.

Variable env : Collaborators.

(** C2, on the code. With [partial] set no search calls the node's track
    lookup, whatever the class and the flags. An identifier search returns
    a [PartialResource] of the invoked class with the query as given and
    the flag off, for every class. A query search returns one with the
    tag, a colon and the query, and the flag on, for the three track
    classes. For [YoutubePlaylist] and [Playable], which have no search
    tag, the query search returns no [PartialResource]: it raises
    [AttributeError], because the tag is looked up before [partial] is
    tested. *)
Theorem search_partial_per_class query node returnFirst :
  (forall cls useQuery,
      lookups (fst (run env (search cls query node useQuery returnFirst true))) = [])
  /\ (forall cls,
      snd (run env (search cls query node false returnFirst true))
      = Return (OPartial (PartialResource.__init__ cls query false)))
  /\ snd (run env (search YoutubeTrack query node true returnFirst true))
     = Return (OPartial (PartialResource.__init__ YoutubeTrack
                           ("ytsearch:" ++ query) true))
  /\ snd (run env (search YoutubeMusicTrack query node true returnFirst true))
     = Return (OPartial (PartialResource.__init__ YoutubeMusicTrack
                           ("ytmsearch:" ++ query) true))
  /\ snd (run env (search SoundcloudTrack query node true returnFirst true))
     = Return (OPartial (PartialResource.__init__ SoundcloudTrack
                           ("scsearch:" ++ query) true))
  /\ _searchType YoutubePlaylist = None
  /\ snd (run env (search YoutubePlaylist query node true returnFirst true))
     = Raise AttributeError
  /\ snd (run env (search Playable query node true returnFirst true))
     = Raise AttributeError.
Proof.
  split.
  { intros cls useQuery. apply search_partial_no_lookup. }
  split.
  { intros cls. unfold search. destruct node; reflexivity. }
  split; [destruct node; reflexivity |].
  split; [destruct node; reflexivity |].
  split; [destruct node; reflexivity |].
  split; [reflexivity |].
  split; destruct node; reflexivity.
Qed.

End PartialSearch.
